(** * EVSE Master UDP: device-state projection, cooldown guard, amperage
      resolution and polling coordinator

    Shallow embedding of
      - [custom_components/evsemasterudp/evse_client.py]  (class [EVSEClient])
      - [custom_components/evsemasterudp/__init__.py]
        (class [EVSEDataUpdateCoordinator])
    and the properties of the specification that concern them.

    Conventions.
      - A Python [dict] with string keys is a [gmap string _].
      - A [datetime] is a [Z] counting microseconds (the resolution of
        Python's [datetime]); a [timedelta] is a [Z] number of microseconds.
      - The clock ([datetime.now()]) is an explicit argument [now] of every
        operation that reads it.
      - Effects (guard dictionaries, the device registry owned by the
        communicator, commands handed to the device link, log records,
        exceptions) are threaded through the monad [M]. *)

From Stdlib Require Import ZArith QArith Lia.
From stdpp Require Import gmap strings list fin_maps.

Set Warnings "-register-all,-clear-no-such-hyp".

Local Open Scope string_scope.
Local Open Scope Z_scope.

(** ** Python values stored in published records *)

(** The values of a published record are heterogeneous Python objects
    ([Dict[str, Any]]). *)
Inductive PyVal : Type :=
| VNone
| VBool (b : bool)
| VInt (n : Z)
| VStr (s : string)
| VList (xs : list PyVal).

(** A dict display [{k1: v1, ..., kn: vn}]: keys are inserted left to right,
    a later duplicate overrides an earlier one. *)
Definition py_dict {V} (items : list (string * V)) : gmap string V :=
  foldl (fun d kv => <[kv.1 := kv.2]> d) ∅ items.

(** [d.update(other)]: every key of [other] is written into [d]. *)
Definition dict_update {V} (d other : gmap string V) : gmap string V :=
  other ∪ d.

(** [d.get(k, default)] *)
Definition dict_get {V} (d : gmap string V) (k : string) (default : V) : V :=
  match d !! k with
  | Some v => v
  | None => default
  end.

(** Association-list reading of a dict display: the last binding of [k]
    wins. *)
Definition alist_get {V} (k : string) (items : list (string * V)) : option V :=
  foldl (fun acc kv => if String.eqb kv.1 k then Some kv.2 else acc) None items.

(** Truth value of a dict: non-empty. *)
Definition dict_truthy {V} (d : gmap string V) : bool :=
  negb (Nat.eqb (size d) 0).

(** Truth value of an instance of a plain class (no [__bool__], no
    [__len__]): always true. *)
Definition obj_truthy {A} (_ : A) : bool := true.

(** [x or default] on an optional string: [None] and [''] are falsy. *)
Definition str_or (x : option string) (default : string) : string :=
  match x with
  | None => default
  | Some s => if String.eqb s "" then default else s
  end.

(** ** The device object of the protocol layer *)

(** Modelled from the spec: the classes of [.protocol] (the device object
    [EVSE] with its [info], [config], [state] and [current_charge] blocks) are
    not part of the sources; the attribute names below are exactly those read
    by [EVSEClient].  Section 6 of the specification: a device exposes
    identity fields, a [lastSeen] timestamp, electrical, thermal and error
    fields, optional active-session fields and a configuration block (name,
    configured max current, temperature unit).  Attributes that the client
    only copies are kept as [PyVal]; the two current ceilings are compared
    with [0] and are integers. *)
Module Info.
Record t : Type := mk {
  serial : string;
  ip : PyVal;
  port : PyVal;
  brand : PyVal;
  model : PyVal;
  hardware_version : PyVal;
  software_version : PyVal;
  max_power : PyVal;
  max_electricity : Z;
  phases : PyVal
}.
End Info.

Module Config.
Record t : Type := mk {
  name : option string;
  max_electricity : Z;
  temperature_unit : PyVal
}.
End Config.

Module State.
Record t : Type := mk {
  current_power : PyVal;
  l1_voltage : PyVal;
  l2_voltage : PyVal;
  l3_voltage : PyVal;
  l1_electricity : PyVal;
  l2_electricity : PyVal;
  l3_electricity : PyVal;
  inner_temp : PyVal;
  outer_temp : PyVal;
  gun_state : PyVal;
  output_state : PyVal;
  errors : PyVal
}.
End State.

Module Charge.
Record t : Type := mk {
  charge_kwh : PyVal;
  charge_id : PyVal;
  start_date : PyVal;
  duration_seconds : PyVal;
  current_state : PyVal
}.
End Charge.

Record EVSE : Type := mkEVSE {
  info : Info.t;
  config : Config.t;
  state : option State.t;
  current_charge : option Charge.t;
  last_seen : PyVal
}.

(** Commands a device object accepts ([evse.login], [evse.charge_start],
    [evse.charge_stop], [evse.set_max_electricity], [evse.set_name],
    [evse.sync_time]). *)
Inductive LinkCmd : Type :=
| CmdLogin (password : string)
| CmdChargeStart (amps : Z) (single_phase : bool)
| CmdChargeStop
| CmdSetMaxElectricity (amps : Z)
| CmdSetName (name : string)
| CmdSyncTime.

(** ** Exceptions and results *)

(** An exception derived from [Exception], the ones [except Exception]
    catches. *)
Inductive Exn : Type :=
| Exception (msg : string).

Inductive Outcome (A : Type) : Type :=
| Ret (a : A)
| Raise (e : Exn).
Arguments Ret {A} a.
Arguments Raise {A} e.

(** Modelled from the spec: the methods of the protocol layer's device
    object, which are not part of the sources.  The connectivity predicates
    and the derived operational-state label are opaque functions of the
    device object; a command method answers with a boolean or raises, and may
    change the device object it is called on. *)
Class DeviceLink : Type := {
  is_online : EVSE -> bool;
  is_logged_in : EVSE -> bool;
  get_meta_state : EVSE -> string;
  evse_call : EVSE -> LinkCmd -> Outcome bool * EVSE
}.

(** ** DeviceRecordProjector: [EVSEClient._evse_to_dict] *)

Section Projector.
Context `{DeviceLink}.

Definition _evse_to_dict (evse : EVSE) : gmap string PyVal :=
  let data := py_dict [
    ("serial", VStr (Info.serial (info evse)));
    ("ip", Info.ip (info evse));
    ("port", Info.port (info evse));
    ("last_seen", last_seen evse);
    ("online", VBool (is_online evse));
    ("logged_in", VBool (is_logged_in evse));
    ("state", VStr (get_meta_state evse));
    ("brand", Info.brand (info evse));
    ("model", Info.model (info evse));
    ("hardware_version", Info.hardware_version (info evse));
    ("software_version", Info.software_version (info evse));
    ("max_power", Info.max_power (info evse));
    ("max_electricity", VInt (Info.max_electricity (info evse)));
    ("phases", Info.phases (info evse));
    ("name", VStr (str_or (Config.name (config evse)) "EVSEMaster"));
    ("configured_max_electricity", VInt (Config.max_electricity (config evse)));
    ("temperature_unit", Config.temperature_unit (config evse))
  ] in
  let data :=
    match state evse with
    | Some st =>
        dict_update data (py_dict [
          ("current_power", State.current_power st);
          ("voltage_l1", State.l1_voltage st);
          ("voltage_l2", State.l2_voltage st);
          ("voltage_l3", State.l3_voltage st);
          ("current_l1", State.l1_electricity st);
          ("current_l2", State.l2_electricity st);
          ("current_l3", State.l3_electricity st);
          ("temperature_inner", State.inner_temp st);
          ("temperature_outer", State.outer_temp st);
          ("gun_state", State.gun_state st);
          ("output_state", State.output_state st);
          ("errors", State.errors st)
        ])
    | None =>
        dict_update data (py_dict [
          ("current_power", VInt 0);
          ("voltage_l1", VInt 0);
          ("voltage_l2", VInt 0);
          ("voltage_l3", VInt 0);
          ("current_l1", VInt 0);
          ("current_l2", VInt 0);
          ("current_l3", VInt 0);
          ("temperature_inner", VInt 0);
          ("temperature_outer", VInt 0);
          ("gun_state", VInt 0);
          ("output_state", VInt 0);
          ("errors", VList [])
        ])
    end in
  let data :=
    match current_charge evse with
    | Some ch =>
        dict_update data (py_dict [
          ("charge_kwh", Charge.charge_kwh ch);
          ("charge_id", Charge.charge_id ch);
          ("start_date", Charge.start_date ch);
          ("duration_seconds", Charge.duration_seconds ch);
          ("charge_state", Charge.current_state ch)
        ])
    | None =>
        dict_update data (py_dict [
          ("charge_kwh", VInt 0);
          ("charge_id", VStr "");
          ("start_date", VNone);
          ("duration_seconds", VInt 0);
          ("charge_state", VInt 0)
        ])
    end in
  data.

End Projector.

(** The published key set of section 6 of the specification. *)
Definition published_keys : list string := [
  "serial"; "ip"; "port"; "last_seen"; "online"; "logged_in"; "state";
  "brand"; "model"; "hardware_version"; "software_version"; "max_power";
  "max_electricity"; "phases"; "name"; "configured_max_electricity";
  "temperature_unit"; "current_power"; "voltage_l1"; "voltage_l2";
  "voltage_l3"; "current_l1"; "current_l2"; "current_l3";
  "temperature_inner"; "temperature_outer"; "gun_state"; "output_state";
  "errors"; "charge_kwh"; "charge_id"; "start_date"; "duration_seconds";
  "charge_state" ].

(** ** Log records *)

(** What is handed to the module logger.  The formatted text of a message is
    not modelled, its level and its arguments are. *)
Inductive LogLevel : Type := LDebug | LInfo | LWarning | LError.

Inductive LogEvent : Type :=
| EvseNotFound (serial : string)
| StartProtectionActive (serial : string) (remaining : Z) (protection_minutes : Z)
| ChargeStopRecorded (serial : string)
| ProtectionSet (serial : string) (minutes : Z)
| NoEvseFound
| EvseDataUpdated (stations : nat)
| ErrorUpdating (err : Exn).

Definition LogRecord : Type := LogLevel * LogEvent.

(** ** The world the facade runs in *)

(** The guard attributes of [EVSEClient] ([__init__], lines 22-24):
    [_fast_change_protection] maps a serial to minutes,
    [_last_charge_change] maps a serial to the time of the last recorded
    stop. *)
Record EVSEClient : Type := mkClient {
  _fast_change_protection : gmap string Z;
  _last_charge_change : gmap string Z
}.

(** [client]: the singleton client; [evses]: the registry of device objects
    owned by the communicator; [sent]: the commands handed to device objects,
    oldest first; [log]: the records written so far, oldest first. *)
Record World : Type := mkWorld {
  client : EVSEClient;
  evses : gmap string EVSE;
  sent : list (string * LinkCmd);
  log : list LogRecord
}.

(** State and exception monad: a computation may change the world and then
    either return or raise; changes made before a raise persist. *)
Definition M (A : Type) : Type := World -> Outcome A * World.

Definition ret {A} (a : A) : M A := fun w => (Ret a, w).

Definition bind {A B} (m : M A) (k : A -> M B) : M B :=
  fun w =>
    match m w with
    | (Ret a, w') => k a w'
    | (Raise e, w') => (Raise e, w')
    end.

Notation "x <<- m ;; k" := (bind m (fun x => k))
  (at level 100, m at next level, right associativity).
Notation "m ;;; k" := (bind m (fun _ => k))
  (at level 100, right associativity).

Definition get_client : M EVSEClient := fun w => (Ret (client w), w).

Definition set_client (c : EVSEClient) : M unit :=
  fun w => (Ret tt, mkWorld c (evses w) (sent w) (log w)).

Definition logger (lvl : LogLevel) (ev : LogEvent) : M unit :=
  fun w => (Ret tt, mkWorld (client w) (evses w) (sent w) (log w ++ [(lvl, ev)])%list).

(** Modelled from the spec: [Communicator.get_evse] of the protocol layer,
    which is not part of the sources
    ([getDevice(serial) -> DeviceOrAbsent]). *)
Definition comm_get_evse (serial : string) : M (option EVSE) :=
  fun w => (Ret (evses w !! serial), w).

(** [timedelta(minutes=m)] in microseconds. *)
Definition timedelta_minutes (m : Z) : Z := m * 60000000.

Section Facade.
Context `{DeviceLink}.

(** [await evse.<method>(...)] on the device object registered under
    [serial]: the command is handed to the device object, which answers or
    raises; the device object, shared with the registry, may have changed. *)
Definition evse_send (serial : string) (evse : EVSE) (cmd : LinkCmd) : M bool :=
  fun w =>
    let (r, evse') := evse_call evse cmd in
    (r, mkWorld (client w) (<[serial := evse']> (evses w))
                (sent w ++ [(serial, cmd)])%list (log w)).

(** [EVSEClient.get_evse], lines 150-155 *)
Definition get_evse (serial : string) : M (option (gmap string PyVal)) :=
  evse <<- comm_get_evse serial ;;
  match evse with
  | Some evse => ret (Some (_evse_to_dict evse))
  | None => ret None
  end.

(** [EVSEClient.get_all_evses], lines 157-162: the loop writes the
    projection of each registered device under its registry key. *)
Definition get_all_evses : M (gmap string (gmap string PyVal)) :=
  fun w => (Ret (_evse_to_dict <$> evses w), w).

(** [EVSEClient.login], lines 164-171 *)
Definition login (serial password : string) : M bool :=
  evse <<- comm_get_evse serial ;;
  match evse with
  | None => logger LError (EvseNotFound serial) ;;; ret false
  | Some evse => evse_send serial evse (CmdLogin password)
  end.

(** [EVSEClient.set_fast_change_protection], lines 243-246 *)
Definition set_fast_change_protection (serial : string) (minutes : Z) : M unit :=
  c <<- get_client ;;
  set_client (mkClient (<[serial := minutes]> (_fast_change_protection c))
                       (_last_charge_change c)) ;;;
  logger LInfo (ProtectionSet serial minutes).

(** [EVSEClient.get_fast_change_protection], lines 248-254 *)
Definition get_fast_change_protection (c : EVSEClient) (serial : string) : Z :=
  dict_get (_fast_change_protection c) serial 1.

(** [EVSEClient._can_start_charge], lines 256-282; [now] is the value
    [datetime.now()] yields at line 269. *)
Definition _can_start_charge (serial : string) (now : Z) : M bool :=
  c <<- get_client ;;
  let protection_minutes := get_fast_change_protection c serial in
  if protection_minutes =? 0 then ret true
  else
    match _last_charge_change c !! serial with
    | None => ret true
    | Some last_change =>
        let time_since_last := now - last_change in
        let min_interval := timedelta_minutes protection_minutes in
        if time_since_last <? min_interval then
          let remaining := min_interval - time_since_last in
          logger LWarning
            (StartProtectionActive serial remaining protection_minutes) ;;;
          ret false
        else ret true
    end.

(** [EVSEClient._record_charge_state_change], lines 284-287 *)
Definition _record_charge_state_change (serial : string) (now : Z) : M unit :=
  c <<- get_client ;;
  set_client (mkClient (_fast_change_protection c)
                       (<[serial := now]> (_last_charge_change c))) ;;;
  logger LDebug (ChargeStopRecorded serial).

(** The amperage block of [start_charging], lines 185-195. *)
Definition start_charging_amps (amps : option Z) (evse : EVSE) : Z :=
  match amps with
  | Some amps => amps
  | None =>
      if obj_truthy (config evse) && (0 <? Config.max_electricity (config evse))
      then Config.max_electricity (config evse)
      else
        let max_amps :=
          if 0 <? Info.max_electricity (info evse)
          then Info.max_electricity (info evse) else 32 in
        Z.min max_amps 16
  end.

(** [EVSEClient.start_charging], lines 173-198 *)
Definition start_charging (serial : string) (amps : option Z)
    (single_phase : bool) (now : Z) : M bool :=
  ok <<- _can_start_charge serial now ;;
  if negb ok then ret false
  else
    evse <<- comm_get_evse serial ;;
    match evse with
    | None => logger LError (EvseNotFound serial) ;;; ret false
    | Some evse =>
        let amps := start_charging_amps amps evse in
        evse_send serial evse (CmdChargeStart amps single_phase)
    end.

(** [EVSEClient.stop_charging], lines 200-214; [now] is the value
    [datetime.now()] yields inside [_record_charge_state_change]. *)
Definition stop_charging (serial : string) (now : Z) : M bool :=
  evse <<- comm_get_evse serial ;;
  match evse with
  | None => logger LError (EvseNotFound serial) ;;; ret false
  | Some evse =>
      let was_charging := String.eqb (get_meta_state evse) "CHARGING" in
      result <<- evse_send serial evse CmdChargeStop ;;
      (if result && was_charging
       then _record_charge_state_change serial now
       else ret tt) ;;;
      ret result
  end.

(** [EVSEClient.set_max_current], lines 216-223 *)
Definition set_max_current (serial : string) (amps : Z) : M bool :=
  evse <<- comm_get_evse serial ;;
  match evse with
  | None => logger LError (EvseNotFound serial) ;;; ret false
  | Some evse => evse_send serial evse (CmdSetMaxElectricity amps)
  end.

(** [EVSEClient.set_name], lines 225-232 *)
Definition set_name (serial name : string) : M bool :=
  evse <<- comm_get_evse serial ;;
  match evse with
  | None => logger LError (EvseNotFound serial) ;;; ret false
  | Some evse => evse_send serial evse (CmdSetName name)
  end.

(** [EVSEClient.sync_time], lines 234-241 *)
Definition sync_time (serial : string) : M bool :=
  evse <<- comm_get_evse serial ;;
  match evse with
  | None => logger LError (EvseNotFound serial) ;;; ret false
  | Some evse => evse_send serial evse CmdSyncTime
  end.

(** [EVSEClient.get_cooldown_remaining], lines 290-306 *)
Definition get_cooldown_remaining (c : EVSEClient) (serial : string) (now : Z) : Z :=
  let protection_minutes := get_fast_change_protection c serial in
  if protection_minutes =? 0 then 0
  else
    match _last_charge_change c !! serial with
    | None => 0
    | Some last_change =>
        let min_interval := timedelta_minutes protection_minutes in
        let elapsed := now - last_change in
        let remaining := min_interval - elapsed in
        if remaining <? 0 then 0 else remaining
    end.

End Facade.

(** ** AmperageResolver, as the specification words it *)

(** Section 4.3: a supplied request passes through unchanged; otherwise the
    configured ceiling when positive; otherwise the smaller of 16 and the
    advertised ceiling, the latter replaced by 32 when it is not positive. *)
Definition resolve (requested : option Z) (configuredMaxElectricity
    deviceMaxElectricity : Z) : Z :=
  match requested with
  | Some amps => amps
  | None =>
      if Z.ltb 0 configuredMaxElectricity then configuredMaxElectricity
      else
        let deviceMaxElectricity_or_32 :=
          if Z.ltb 0 deviceMaxElectricity then deviceMaxElectricity else 32 in
        Z.min deviceMaxElectricity_or_32 16
  end.

(** ** PollingCoordinator: [EVSEDataUpdateCoordinator] *)

(** What the coordinator keeps between ticks.  [data] and
    [last_update_success] are attributes of the Home Assistant base class
    [DataUpdateCoordinator]; [data] is [None] until the first refresh, the
    class of this repository adds no attribute of its own besides the
    client handle. *)
Record Coordinator : Type := mkCoordinator {
  data : option (gmap string (gmap string PyVal));
  last_update_success : bool
}.

Definition initial_coordinator : Coordinator := mkCoordinator None true.

(** The mapping currently published: empty before the first refresh. *)
Definition published (self : Coordinator) : gmap string (gmap string PyVal) :=
  default ∅ (data self).

(** [self.data if hasattr(self, 'data') and self.data else {}], line 56 *)
Definition data_or_empty (self : Coordinator) : gmap string (gmap string PyVal) :=
  match data self with
  | Some d => if dict_truthy d then d else ∅
  | None => ∅
  end.

(** [EVSEDataUpdateCoordinator._async_update_data], lines 40-56.  [fetch] is
    what evaluating [self.client.get_all_evses()] does at line 44: it returns
    a mapping or raises. *)
Definition _async_update_data (self : Coordinator)
    (fetch : Outcome (gmap string (gmap string PyVal)))
    : Outcome (gmap string (gmap string PyVal)) * list LogRecord :=
  match fetch with
  | Ret evses =>
      if negb (dict_truthy evses) then (Ret ∅, [(LDebug, NoEvseFound)])
      else (Ret evses, [(LDebug, EvseDataUpdated (size evses))])
  | Raise err =>
      (Ret (data_or_empty self), [(LWarning, ErrorUpdating err)])
  end.

(** One poll tick as the base class runs it: the mapping returned by
    [_async_update_data] is stored in [data] and published, and
    [last_update_success] is set; if the method raises, [data] is kept and
    [last_update_success] is cleared. *)
Definition async_refresh (self : Coordinator)
    (fetch : Outcome (gmap string (gmap string PyVal)))
    : Coordinator * list LogRecord :=
  match _async_update_data self fetch with
  | (Ret d, records) => (mkCoordinator (Some d) true, records)
  | (Raise _, records) => (mkCoordinator (data self) false, records)
  end.

(** A sequence of poll ticks, oldest first. *)
Definition run_ticks (self : Coordinator)
    (fetches : list (Outcome (gmap string (gmap string PyVal)))) : Coordinator :=
  foldl (fun c fetch => (async_refresh c fetch).1) self fetches.

(** The mapping of the most recent successful fetch of a history. *)
Definition last_fetched (fetches : list (Outcome (gmap string (gmap string PyVal))))
    : gmap string (gmap string PyVal) :=
  foldl (fun acc fetch => match fetch with Ret m => m | Raise _ => acc end)
        ∅ fetches.

(** A poll tick against the facade. *)
Definition poll `{DeviceLink} (self : Coordinator) (w : World) : Coordinator :=
  (async_refresh self (get_all_evses w).1).1.

(** The specification's requirement that a failed fetch and a successful
    empty fetch can be told apart from what the coordinator stores: some
    observation of the stored state answers [false] after every tick whose
    fetch raised and [true] after every tick whose fetch returned the empty
    mapping. *)
Definition outcomes_distinguishable : Prop :=
  exists last_fetch_succeeded : Coordinator -> bool,
    forall history err,
      last_fetch_succeeded (run_ticks initial_coordinator (history ++ [Raise err])%list) = false
      /\ last_fetch_succeeded (run_ticks initial_coordinator (history ++ [Ret ∅])%list) = true.

(** The default block of section 8 of the specification: what a record holds
    for a device without electrical-state snapshot and without session.
    [start_date] is present and holds [None]. *)
Definition default_block : list (string * PyVal) := [
  ("current_power", VInt 0);
  ("voltage_l1", VInt 0); ("voltage_l2", VInt 0); ("voltage_l3", VInt 0);
  ("current_l1", VInt 0); ("current_l2", VInt 0); ("current_l3", VInt 0);
  ("temperature_inner", VInt 0); ("temperature_outer", VInt 0);
  ("gun_state", VInt 0); ("output_state", VInt 0);
  ("errors", VList []);
  ("charge_kwh", VInt 0);
  ("charge_id", VStr "");
  ("start_date", VNone);
  ("duration_seconds", VInt 0);
  ("charge_state", VInt 0) ].

(** ** Concrete devices and links for the examples *)

Definition idle_evse (name : option string) (configured advertised : Z) : EVSE :=
  mkEVSE
    (Info.mk "ABC123" (VStr "192.168.1.20") (VInt 28376) (VStr "Morec")
             (VStr "EVSE") (VStr "1.0") (VStr "2.3") (VInt 7) advertised (VInt 1))
    (Config.mk name configured (VInt 1))
    None None (VInt 0).

(** A link whose devices answer every command with [reply] and report the
    label [label]. *)
Definition constant_link (label : string) (reply : Outcome bool) : DeviceLink :=
  {| is_online := fun _ => true;
     is_logged_in := fun _ => true;
     get_meta_state := fun _ => label;
     evse_call := fun evse _ => (reply, evse) |}.

Definition empty_world : World := mkWorld (mkClient ∅ ∅) ∅ [] [].

(** One device [ABC123], protection of [minutes] minutes, a stop recorded at
    time [t0]. *)
Definition armed_world (minutes t0 : Z) : World :=
  mkWorld (mkClient {["ABC123" := minutes]} {["ABC123" := t0]})
          {["ABC123" := idle_evse None 0 20]} [] [].

(** * The rest of the client, the entry points and the number entities *)

(** ** Callbacks of the client *)

(** [EVSEClient.callbacks] is a dict from a name to a callable, iterated in
    insertion order: a list of bindings with distinct names.  Assigning to a
    name already present keeps its position. *)
Fixpoint odict_set {V} (k : string) (v : V) (d : list (string * V))
    : list (string * V) :=
  match d with
  | [] => [(k, v)]
  | (k', v') :: d' =>
      if String.eqb k' k then (k, v) :: d' else (k', v') :: odict_set k v d'
  end.

(** [d.pop(k, None)]: the binding of [k] is removed if there is one. *)
Fixpoint odict_pop {V} (k : string) (d : list (string * V))
    : list (string * V) :=
  match d with
  | [] => []
  | (k', v') :: d' =>
      if String.eqb k' k then d' else (k', v') :: odict_pop k d'
  end.

Fixpoint odict_get {V} (k : string) (d : list (string * V)) : option V :=
  match d with
  | [] => None
  | (k', v') :: d' => if String.eqb k' k then Some v' else odict_get k d'
  end.

(** A registered callable, awaited as [callback(serial, evse_data)]: it
    returns or raises, and may have changed the dict object it was handed. *)
Definition Callback : Type :=
  string -> gmap string PyVal -> Outcome unit * gmap string PyVal.

(** [EVSEClient.add_callback], lines 142-144 *)
Definition add_callback (callbacks : list (string * Callback)) (name : string)
    (callback : Callback) : list (string * Callback) :=
  odict_set name callback callbacks.

(** [EVSEClient.remove_callback], lines 146-148 *)
Definition remove_callback (callbacks : list (string * Callback))
    (name : string) : list (string * Callback) :=
  odict_pop name callbacks.

(** The loop of [_handle_evse_event], lines 57-61.  The result lists, oldest
    first, each callback awaited with the record it was handed, and the
    exceptions that were caught and logged as errors; the one dict object
    [evse_data] is handed to every callback in turn. *)
Fixpoint notify_callbacks (callbacks : list (string * Callback))
    (serial : string) (evse_data : gmap string PyVal)
    : list (string * gmap string PyVal) * list Exn :=
  match callbacks with
  | [] => ([], [])
  | (name, callback) :: rest =>
      let (r, evse_data') := callback serial evse_data in
      let (awaited, caught) := notify_callbacks rest serial evse_data' in
      ((name, evse_data) :: awaited,
       match r with Ret _ => caught | Raise e => e :: caught end)
  end.

(** [EVSEClient._handle_evse_event], lines 51-61 *)
Definition _handle_evse_event `{DeviceLink}
    (callbacks : list (string * Callback)) (event : string) (evse : EVSE)
    : list (string * gmap string PyVal) * list Exn :=
  let evse_data := _evse_to_dict evse in
  notify_callbacks callbacks (Info.serial (info evse)) evse_data.

(** ** Starting and stopping the client *)

(** Calls made on the communicator, oldest first. *)
Inductive CommCall : Type :=
| CommStart
| CommAddCallback (name : string)
| CommRemoveCallback (name : string)
| CommStop.

Inductive LifecycleEvent : Type :=
| ClientStarted (port : Z)
| ClientStartError (e : Exn)
| ClientStopped
| UnableToStart (e : Exn).

(** Modelled from the spec: the communicator of the protocol layer, which is
    not part of the sources.  Each of the four methods the client calls on
    it returns or raises. *)
Record Communicator : Type := mkCommunicator {
  comm_start : Outcome unit;
  comm_add_callback : Outcome unit;
  comm_remove_callback : Outcome unit;
  comm_stop : Outcome unit
}.

(** The [running] attribute of the client, with the calls made on the
    communicator and the lifecycle records logged. *)
Record Runtime : Type := mkRuntime {
  running : bool;
  comm_calls : list CommCall;
  lifecycle_log : list (LogLevel * LifecycleEvent)
}.

(** [EVSEClient.start], lines 26-42 *)
Definition start (comm : Communicator) (port : Z) (rt : Runtime)
    : Outcome unit * Runtime :=
  if running rt then (Ret tt, rt)
  else
    let calls := (comm_calls rt ++ [CommStart])%list in
    match comm_start comm with
    | Raise e =>
        (Raise e,
         mkRuntime (running rt) calls
           (lifecycle_log rt ++ [(LError, ClientStartError e)])%list)
    | Ret _ =>
        let calls := (calls ++ [CommAddCallback "evse_client"])%list in
        match comm_add_callback comm with
        | Raise e =>
            (Raise e,
             mkRuntime true calls
               (lifecycle_log rt ++ [(LError, ClientStartError e)])%list)
        | Ret _ =>
            (Ret tt,
             mkRuntime true calls
               (lifecycle_log rt ++ [(LInfo, ClientStarted port)])%list)
        end
    end.

(** [EVSEClient.stop], lines 44-49 *)
Definition stop (comm : Communicator) (rt : Runtime) : Outcome unit * Runtime :=
  let calls := (comm_calls rt ++ [CommRemoveCallback "evse_client"])%list in
  match comm_remove_callback comm with
  | Raise e => (Raise e, mkRuntime false calls (lifecycle_log rt))
  | Ret _ =>
      let calls := (calls ++ [CommStop])%list in
      match comm_stop comm with
      | Raise e => (Raise e, mkRuntime false calls (lifecycle_log rt))
      | Ret _ =>
          (Ret tt,
           mkRuntime false calls
             (lifecycle_log rt ++ [(LInfo, ClientStopped)])%list)
      end
  end.

(** ** Setting up and unloading a config entry *)

(** Lines 74-80 of [async_setup_entry]: the client is started unless it is
    running; [Some false] is the early [return False], [None] means the
    function goes on. *)
Definition setup_start_client (comm : Communicator) (port : Z) (rt : Runtime)
    : option bool * Runtime :=
  if negb (running rt) then
    match start comm port rt with
    | (Ret _, rt') => (None, rt')
    | (Raise err, rt') =>
        (Some false,
         mkRuntime (running rt') (comm_calls rt')
           (lifecycle_log rt' ++ [(LError, UnableToStart err)])%list)
    end
  else (None, rt).

(** What the login loop of [async_setup_entry] logs and waits for. *)
Inductive SetupEvent : Type :=
| Connected (serial : string)
| AttemptFailed (serial : string) (attempt : nat)
| Slept (seconds : Z)
| UnableToConnect (serial : string).




(** [async_unload_entry], lines 138-153.  [unload_ok] is what the host's
    [async_unload_platforms] answered; [domain] is [hass.data[DOMAIN]],
    from entry id to what [async_setup_entry] stored. *)
Definition async_unload_entry {D} (comm : Communicator) (unload_ok : bool)
    (entry_id : string) (domain : gmap string D) (rt : Runtime)
    : Outcome bool * gmap string D * Runtime :=
  if unload_ok then
    match domain !! entry_id with
    | None => (Raise (Exception "KeyError"), domain, rt)
    | Some _ =>
        let domain := delete entry_id domain in
        if negb (dict_truthy domain) then
          match stop comm rt with
          | (Ret _, rt') => (Ret unload_ok, domain, rt')
          | (Raise e, rt') => (Raise e, domain, rt')
          end
        else (Ret unload_ok, domain, rt)
    end
  else (Ret unload_ok, domain, rt).

(** ** The number entities of [number.py] *)

(** Truth value of a Python value. *)
Definition py_truthy (v : PyVal) : bool :=
  match v with
  | VNone => false
  | VBool b => b
  | VInt n => negb (n =? 0)
  | VStr s => negb (String.eqb s "")
  | VList xs => match xs with [] => false | _ :: _ => true end
  end.

(** [a and b] *)
Definition py_and (a b : PyVal) : PyVal := if py_truthy a then b else a.

(** [int(value)] on the float the host hands to [async_set_native_value]:
    a finite float is a rational, and [int] truncates toward zero. *)
Definition py_int (value : Q) : Z := Z.quot (Qnum value) (Z.pos (Qden value)).

(** The property [evse_data] of both entities, lines 64-67 and 116-119:
    [self.coordinator.data.get(self.serial, {})]; [None] has no [get]. *)
Definition evse_data (coordinator : Coordinator) (serial : string)
    : Outcome (gmap string PyVal) :=
  match data coordinator with
  | None => Raise (Exception "AttributeError")
  | Some d => Ret (dict_get d serial ∅)
  end.

(** [EVSECurrentControl.available], lines 81-85 *)
Definition current_control_available (coordinator : Coordinator)
    (serial : string) : Outcome PyVal :=
  match evse_data coordinator serial with
  | Raise e => Raise e
  | Ret d =>
      Ret (py_and (dict_get d "online" (VBool false))
                  (dict_get d "logged_in" (VBool false)))
  end.

(** [EVSEFastChangeProtection.available], lines 126-130 *)
Definition protection_available (coordinator : Coordinator)
    (serial : string) : Outcome PyVal :=
  match evse_data coordinator serial with
  | Raise e => Raise e
  | Ret d => Ret (dict_get d "online" (VBool false))
  end.

(** An instance attribute that [__init__] does not assign: reading it
    before an assignment raises [AttributeError]. *)
Inductive Attribute (A : Type) : Type :=
| Unset
| Assigned (a : A).
Arguments Unset {A}.
Arguments Assigned {A} a.

(** What [native_value] of the current control returns: the restored float,
    or a value taken from the record, or the literal [6]. *)
Inductive NumberValue : Type :=
| NumFloat (x : Q)
| NumPy (v : PyVal).

(** [EVSECurrentControl.async_added_to_hass], lines 56-61;
    [last_number_data] is what [async_get_last_number_data] returned,
    reduced to its [native_value]. *)
Definition current_control_added_to_hass (_restored_value : Attribute (option Q))
    (last_number_data : option (option Q)) : Attribute (option Q) :=
  match last_number_data with
  | Some (Some native_value) => Assigned (Some native_value)
  | _ => _restored_value
  end.

(** [EVSECurrentControl.native_value], lines 69-79 *)
Definition current_control_native_value (_restored_value : Attribute (option Q))
    (coordinator : Coordinator) (serial : string) : Outcome NumberValue :=
  match evse_data coordinator serial with
  | Raise e => Raise e
  | Ret d =>
      let evse_value := dict_get d "configured_max_electricity" VNone in
      match _restored_value with
      | Unset => Raise (Exception "AttributeError")
      | Assigned restored_value =>
          match restored_value with
          | Some x => Ret (NumFloat x)
          | None =>
              match evse_value with
              | VNone => Ret (NumPy (VInt 6))
              | v => Ret (NumPy v)
              end
          end
      end
  end.

(** [EVSECurrentControl.async_set_native_value], lines 87-91; the result
    tells whether [coordinator.async_request_refresh()] was awaited. *)
Definition current_control_set_native_value `{DeviceLink} (serial : string)
    (value : Q) : M bool :=
  success <<- set_max_current serial (py_int value) ;;
  if success then ret true else ret false.

(** [EVSEFastChangeProtection.__init__], line 114 *)
Definition initial_protection_minutes : Z := 1.

(** [EVSEFastChangeProtection.async_set_native_value], lines 132-136: the
    new [_protection_minutes] of the entity, and the call on the client. *)
Definition protection_set_native_value (serial : string) (value : Q) (w : World)
    : Z * (Outcome unit * World) :=
  let _protection_minutes := py_int value in
  (_protection_minutes,
   set_fast_change_protection serial _protection_minutes w).

(** What it means for the run [r] of an operation from world [w] to be a
    plain forward of [cmd] to the device [evse] registered under [serial]. *)
Definition thin_forward `{DeviceLink} (r : Outcome bool * World) (w : World)
    (serial : string) (evse : EVSE) (cmd : LinkCmd) : Prop :=
  r.1 = (evse_call evse cmd).1
  /\ sent r.2 = (sent w ++ [(serial, cmd)])%list
  /\ evses r.2 = <[serial := (evse_call evse cmd).2]> (evses w)
  /\ client r.2 = client w
  /\ log r.2 = log w.

(** A protection entity through a sequence of
    [async_set_native_value] calls, oldest first: its [_protection_minutes]
    and the world. *)
Definition protection_entity_run (serial : string) (values : list Q)
    (start_state : Z * World) : Z * World :=
  foldl (fun st value =>
           let r := protection_set_native_value serial value st.2 in
           (r.1, r.2.2))
        start_state values.

(** Seconds the login loop waited. *)
Fixpoint total_sleep (events : list SetupEvent) : Z :=
  match events with
  | [] => 0
  | Slept seconds :: rest => seconds + total_sleep rest
  | _ :: rest => total_sleep rest
  end.

(** The exception a callback raises on a record, if it raises. *)
Definition callback_raises (serial : string) (evse_data : gmap string PyVal)
    (binding : string * Callback) : option Exn :=
  match (binding.2 serial evse_data).1 with
  | Ret _ => None
  | Raise e => Some e
  end.

(** ** Further concrete inputs for the examples *)

(** A device with a snapshot and a session. *)
Definition charging_evse : EVSE :=
  mkEVSE
    (Info.mk "ABC123" (VStr "192.168.1.20") (VInt 28376) (VStr "Morec")
             (VStr "EVSE") (VStr "1.0") (VStr "2.3") (VInt 7) 32 (VInt 1))
    (Config.mk (Some "garage") 10 (VInt 1))
    (Some (State.mk (VInt 2300) (VInt 230) (VInt 0) (VInt 0) (VInt 10)
                    (VInt 0) (VInt 0) (VInt 31) (VInt 18) (VInt 4) (VInt 1)
                    (VList [])))
    (Some (Charge.mk (VInt 3) (VStr "20261103") (VInt 1762200000) (VInt 600)
                     (VInt 14)))
    (VInt 0).

Definition working_communicator : Communicator :=
  mkCommunicator (Ret tt) (Ret tt) (Ret tt) (Ret tt).

Definition failing_communicator : Communicator :=
  mkCommunicator (Raise (Exception "OSError")) (Ret tt) (Ret tt) (Ret tt).

Definition stopped_runtime : Runtime := mkRuntime false [] [].

Definition quiet_callback : Callback := fun _ evse_data => (Ret tt, evse_data).

Definition raising_callback : Callback :=
  fun _ evse_data => (Raise (Exception "boom"), evse_data).

(** * Properties *)

(** ** Dict displays and updates *)

Section DictLemmas.
Context {V : Type}.
Implicit Types (d other : gmap string V) (items : list (string * V)).

Lemma foldl_insert_lookup items d (k : string) :
  foldl (fun d kv => <[kv.1 := kv.2]> d) d items !! k
  = foldl (fun acc kv => if String.eqb kv.1 k then Some kv.2 else acc)
          (d !! k) items.
Proof.
  revert d. induction items as [|[k' v] items IH]; intros d; simpl; [done|].
  rewrite IH. f_equal.
  destruct (String.eqb_spec k' k) as [->|Hne].
  - by rewrite lookup_insert_eq.
  - by rewrite lookup_insert_ne.
Qed.

Lemma lookup_py_dict items (k : string) :
  py_dict items !! k = alist_get k items.
Proof. unfold py_dict, alist_get. by rewrite foldl_insert_lookup, lookup_empty. Qed.

Lemma foldl_insert_dom items d :
  dom (foldl (fun d kv => <[kv.1 := kv.2]> d) d items)
  = dom d ∪ list_to_set items.*1.
Proof.
  revert d. induction items as [|[k v] items IH]; intros d; simpl.
  - set_solver.
  - rewrite IH, dom_insert_L. set_solver.
Qed.

Lemma dom_py_dict items : dom (py_dict items) = list_to_set items.*1.
Proof. unfold py_dict. rewrite foldl_insert_dom, dom_empty_L. set_solver. Qed.

Lemma lookup_dict_update d other (k : string) :
  dict_update d other !! k
  = match other !! k with Some v => Some v | None => d !! k end.
Proof.
  unfold dict_update. rewrite lookup_union.
  by destruct (other !! k), (d !! k).
Qed.

Lemma dom_dict_update d other :
  dom (dict_update d other) = dom d ∪ dom other.
Proof. unfold dict_update. rewrite dom_union_L. set_solver. Qed.
End DictLemmas.

(** ** DeviceRecordProjector *)

Section ProjectorProperties.
Context `{DeviceLink}.

Ltac projector_lookup :=
  unfold _evse_to_dict;
  repeat match goal with
         | E : state _ = _ |- _ => rewrite E
         | E : current_charge _ = _ |- _ => rewrite E
         | |- context [match state ?e with _ => _ end] => destruct (state e)
         | |- context [match current_charge ?e with _ => _ end] =>
             destruct (current_charge e)
         end;
  rewrite ?lookup_dict_update, ?lookup_py_dict.

(** Every record has exactly the published key set, whatever the device. *)
Lemma dom_evse_to_dict evse :
  dom (_evse_to_dict evse) = list_to_set published_keys.
Proof.
  assert (Hsplit : published_keys
            = (take 17 published_keys
               ++ take 12 (drop 17 published_keys)
               ++ drop 29 published_keys)%list)
    by reflexivity.
  rewrite Hsplit, !list_to_set_app_L, (assoc_L (∪)).
  unfold _evse_to_dict.
  destruct (state evse), (current_charge evse);
    rewrite !dom_dict_update, !dom_py_dict; reflexivity.
Qed.

Lemma evse_to_dict_keys evse (k : string) :
  k ∈ published_keys <-> is_Some (_evse_to_dict evse !! k).
Proof.
  rewrite <- elem_of_dom, dom_evse_to_dict. set_solver.
Qed.

(** C5: the projection is a total function of the device object; its
    result always has exactly the published keys (none missing, none
    added), and for a device without snapshot and without session every key
    of the default block holds its documented default. *)
Theorem evse_to_dict_default_block evse :
  dom (_evse_to_dict evse) = list_to_set published_keys
  /\ (forall k : string, k ∈ published_keys -> is_Some (_evse_to_dict evse !! k))
  /\ (state evse = None -> current_charge evse = None ->
      Forall (fun kv => _evse_to_dict evse !! kv.1 = Some kv.2) default_block).
Proof.
  split; [apply dom_evse_to_dict|]. split.
  - intros k Hk. by apply evse_to_dict_keys.
  - intros Hst Hch. unfold default_block.
    repeat (apply Forall_cons; split; [projector_lookup; reflexivity|]).
    apply Forall_nil_2.
Qed.

(** C10: an empty or absent display name is published as ['EVSEMaster']. *)
Theorem evse_to_dict_name_fallback evse :
  Config.name (config evse) = None \/ Config.name (config evse) = Some "" ->
  _evse_to_dict evse !! "name" = Some (VStr "EVSEMaster").
Proof.
  intros Hname.
  assert (Hor : str_or (Config.name (config evse)) "EVSEMaster" = "EVSEMaster").
  { destruct Hname as [-> | ->]; reflexivity. }
  projector_lookup; rewrite Hor; reflexivity.
Qed.

(** A non-empty display name is published as it is. *)
Lemma evse_to_dict_name_kept evse s :
  Config.name (config evse) = Some s -> s <> "" ->
  _evse_to_dict evse !! "name" = Some (VStr s).
Proof.
  intros Hname Hs.
  assert (Hor : str_or (Some s) "EVSEMaster" = s).
  { simpl. destruct (String.eqb_spec s ""); congruence. }
  projector_lookup; rewrite Hname, Hor; reflexivity.
Qed.

End ProjectorProperties.

Lemma evse_to_dict_default_block_witness :
  let link := constant_link "IDLE" (Ret true) in
  let evse := idle_evse (Some "garage") 10 32 in
  dom (_evse_to_dict evse) = list_to_set published_keys
  /\ (forall k : string, k ∈ published_keys -> is_Some (_evse_to_dict evse !! k))
  /\ Forall (fun kv => _evse_to_dict evse !! kv.1 = Some kv.2) default_block.
Proof.
  intros link evse.
  destruct (@evse_to_dict_default_block link evse) as (Hdom & Hkeys & Hdef).
  split; [exact Hdom|]. split; [exact Hkeys|].
  apply Hdef; reflexivity.
Defined.

Lemma evse_to_dict_name_fallback_witness :
  @_evse_to_dict (constant_link "IDLE" (Ret true)) (idle_evse (Some "") 10 32)
    !! "name" = Some (VStr "EVSEMaster").
Proof.
  apply (@evse_to_dict_name_fallback (constant_link "IDLE" (Ret true))).
  right. reflexivity.
Defined.

(** ** ChargeControlGuard *)

Ltac run_monad :=
  unfold bind, ret, get_client, set_client, logger, comm_get_evse; simpl.

Section GuardProperties.
Implicit Types (w : World) (serial : string) (now : Z).

(** What [_can_start_charge] answers and does, case by case. *)
Lemma can_start_charge_disabled serial now w :
  get_fast_change_protection (client w) serial = 0 ->
  _can_start_charge serial now w = (Ret true, w).
Proof.
  intros Hp. unfold _can_start_charge. run_monad. by rewrite Hp.
Qed.

Lemma can_start_charge_no_stop serial now w :
  _last_charge_change (client w) !! serial = None ->
  _can_start_charge serial now w = (Ret true, w).
Proof.
  intros Hlast. unfold _can_start_charge. run_monad. rewrite Hlast.
  by destruct (_ =? 0).
Qed.

Lemma can_start_charge_elapsed serial now w t0 :
  _last_charge_change (client w) !! serial = Some t0 ->
  t0 + timedelta_minutes (get_fast_change_protection (client w) serial) <= now ->
  _can_start_charge serial now w = (Ret true, w).
Proof.
  intros Hlast Hnow. unfold _can_start_charge. run_monad. rewrite Hlast.
  destruct (_ =? 0); [done|].
  destruct (Z.ltb_spec (now - t0)
    (timedelta_minutes (get_fast_change_protection (client w) serial)));
    [lia | done].
Qed.

Lemma can_start_charge_blocked serial now w t0 :
  get_fast_change_protection (client w) serial <> 0 ->
  _last_charge_change (client w) !! serial = Some t0 ->
  now < t0 + timedelta_minutes (get_fast_change_protection (client w) serial) ->
  _can_start_charge serial now w
  = (Ret false,
     mkWorld (client w) (evses w) (sent w)
       (log w ++ [(LWarning,
          StartProtectionActive serial
            (timedelta_minutes (get_fast_change_protection (client w) serial)
             - (now - t0))
            (get_fast_change_protection (client w) serial))])%list).
Proof.
  intros Hp Hlast Hnow. unfold _can_start_charge. run_monad. rewrite Hlast.
  destruct (Z.eqb_spec (get_fast_change_protection (client w) serial) 0);
    [done|].
  destruct (Z.ltb_spec (now - t0)
    (timedelta_minutes (get_fast_change_protection (client w) serial)));
    [done | lia].
Qed.

(** The guard check always returns, and touches nothing but the log. *)
Lemma can_start_charge_frame serial now w :
  exists b records,
    _can_start_charge serial now w
    = (Ret b, mkWorld (client w) (evses w) (sent w) (log w ++ records)%list).
Proof.
  destruct (Z.eq_dec (get_fast_change_protection (client w) serial) 0) as [Hp|Hp].
  { exists true, []. rewrite can_start_charge_disabled by done.
    rewrite app_nil_r. by destruct w. }
  destruct (_last_charge_change (client w) !! serial) as [t0|] eqn:Hlast.
  2:{ exists true, []. rewrite can_start_charge_no_stop by done.
      rewrite app_nil_r. by destruct w. }
  destruct (Z_lt_le_dec now
    (t0 + timedelta_minutes (get_fast_change_protection (client w) serial))).
  - eexists false, _. by apply can_start_charge_blocked.
  - exists true, []. rewrite (can_start_charge_elapsed _ _ _ t0) by done.
    rewrite app_nil_r. by destruct w.
Qed.

(** C3: with a positive protection and a stop recorded at [t0], the check
    fails at every time before [t0] plus the protection and passes from
    that instant on; it passes when the protection is 0 or no stop is
    recorded; the guard dictionaries are never changed. *)
Theorem can_start_charge_cooldown serial now w :
  let p := get_fast_change_protection (client w) serial in
  let r := _can_start_charge serial now w in
  (forall t0, 0 < p -> _last_charge_change (client w) !! serial = Some t0 ->
     (now < t0 + timedelta_minutes p -> r.1 = Ret false)
     /\ (t0 + timedelta_minutes p <= now -> r.1 = Ret true))
  /\ (p = 0 \/ _last_charge_change (client w) !! serial = None -> r.1 = Ret true)
  /\ client r.2 = client w.
Proof.
  intros p r. subst p r. repeat split.
  - intros Hnow. rewrite (can_start_charge_blocked _ _ _ t0); [done|lia|done|done].
  - intros Hnow. by rewrite (can_start_charge_elapsed _ _ _ t0).
  - intros [Hp|Hlast].
    + by rewrite can_start_charge_disabled.
    + by rewrite can_start_charge_no_stop.
  - destruct (can_start_charge_frame serial now w) as (b & records & ->). done.
Qed.

(** C8: a protection of 0 minutes lets every start check pass, whatever is
    recorded as last stop; so does the state reached by setting the
    protection to 0. *)
Theorem protection_zero_allows_start serial now w :
  (get_fast_change_protection (client w) serial = 0 ->
   (_can_start_charge serial now w).1 = Ret true)
  /\ (_can_start_charge serial now
        (set_fast_change_protection serial 0 w).2).1 = Ret true.
Proof.
  split.
  - intros Hp. by rewrite can_start_charge_disabled.
  - rewrite can_start_charge_disabled; [done|].
    unfold set_fast_change_protection, get_fast_change_protection, dict_get.
    run_monad. by rewrite lookup_insert_eq.
Qed.

(** Setting the protection keeps the recorded stops. *)
Lemma set_fast_change_protection_keeps_stops serial minutes w :
  _last_charge_change (client (set_fast_change_protection serial minutes w).2)
  = _last_charge_change (client w).
Proof. unfold set_fast_change_protection. by run_monad. Qed.

(** The remaining cooldown is positive exactly when the start check
    fails. *)
Lemma cooldown_remaining_pos_iff_blocked serial now w :
  0 <= get_fast_change_protection (client w) serial ->
  0 < get_cooldown_remaining (client w) serial now
  <-> (_can_start_charge serial now w).1 = Ret false.
Proof.
  intros Hp. unfold get_cooldown_remaining.
  destruct (Z.eqb_spec (get_fast_change_protection (client w) serial) 0) as [E|E].
  { rewrite can_start_charge_disabled by done. simpl. split; [lia|done]. }
  destruct (_last_charge_change (client w) !! serial) as [t0|] eqn:Hlast.
  2:{ rewrite can_start_charge_no_stop by done. simpl. split; [lia|done]. }
  destruct (Z_lt_le_dec now
    (t0 + timedelta_minutes (get_fast_change_protection (client w) serial))).
  - rewrite (can_start_charge_blocked _ _ _ t0) by done. simpl.
    destruct (Z.ltb_spec (timedelta_minutes
      (get_fast_change_protection (client w) serial) - (now - t0)) 0);
      split; intros; try done; lia.
  - rewrite (can_start_charge_elapsed _ _ _ t0) by done. simpl.
    destruct (Z.ltb_spec (timedelta_minutes
      (get_fast_change_protection (client w) serial) - (now - t0)) 0);
      split; intros; try done; lia.
Qed.

End GuardProperties.

Lemma armed_world_protection minutes t0 :
  get_fast_change_protection (client (armed_world minutes t0)) "ABC123" = minutes.
Proof.
  unfold get_fast_change_protection, dict_get, armed_world. simpl.
  by rewrite lookup_singleton_eq.
Qed.

Lemma armed_world_last_stop minutes t0 :
  _last_charge_change (client (armed_world minutes t0)) !! "ABC123" = Some t0.
Proof. unfold armed_world. simpl. by rewrite lookup_singleton_eq. Qed.

Lemma can_start_charge_cooldown_witness :
  (* one minute of protection, stop recorded at 1000 microseconds *)
  (_can_start_charge "ABC123" (1000 + 59999999) (armed_world 1 1000)).1 = Ret false
  /\ (_can_start_charge "ABC123" (1000 + 60000000) (armed_world 1 1000)).1 = Ret true
  /\ (_can_start_charge "ABC123" 5 (armed_world 0 1000)).1 = Ret true.
Proof.
  split; [|split].
  - destruct (can_start_charge_cooldown "ABC123" (1000 + 59999999) (armed_world 1 1000))
      as (Hcool & _ & _).
    destruct (Hcool 1000) as [Hblocked _].
    + rewrite armed_world_protection. lia.
    + apply armed_world_last_stop.
    + apply Hblocked. rewrite armed_world_protection. reflexivity.
  - destruct (can_start_charge_cooldown "ABC123" (1000 + 60000000) (armed_world 1 1000))
      as (Hcool & _ & _).
    destruct (Hcool 1000) as [_ Hfree].
    + rewrite armed_world_protection. lia.
    + apply armed_world_last_stop.
    + apply Hfree. rewrite armed_world_protection. unfold timedelta_minutes. lia.
  - destruct (can_start_charge_cooldown "ABC123" 5 (armed_world 0 1000))
      as (_ & Hoff & _).
    apply Hoff. left. apply armed_world_protection.
Defined.

Lemma protection_zero_allows_start_witness :
  (_can_start_charge "ABC123" 1001 (armed_world 0 1000)).1 = Ret true.
Proof.
  apply (proj1 (protection_zero_allows_start "ABC123" 1001 (armed_world 0 1000))).
  apply armed_world_protection.
Defined.

(** ** DeviceRegistryFacade *)

Section FacadeProperties.
Context `{DeviceLink}.
Implicit Types (w : World) (serial : string) (now : Z) (evse : EVSE).

(** Handing a command to a device object appends it to the commands sent
    and leaves the guard alone. *)
Lemma evse_send_effect serial evse cmd w :
  (evse_send serial evse cmd w).1 = (evse_call evse cmd).1
  /\ client (evse_send serial evse cmd w).2 = client w
  /\ sent (evse_send serial evse cmd w).2 = (sent w ++ [(serial, cmd)])%list
  /\ log (evse_send serial evse cmd w).2 = log w.
Proof. unfold evse_send. by destruct (evse_call evse cmd). Qed.

(** A start check that passes leaves the world as it found it. *)
Lemma can_start_charge_true_world serial now w :
  (_can_start_charge serial now w).1 = Ret true ->
  _can_start_charge serial now w = (Ret true, w).
Proof.
  intros Hok.
  destruct (Z.eq_dec (get_fast_change_protection (client w) serial) 0) as [Hp|Hp];
    [by apply can_start_charge_disabled|].
  destruct (_last_charge_change (client w) !! serial) as [t0|] eqn:Hlast;
    [|by apply can_start_charge_no_stop].
  destruct (Z_lt_le_dec now
    (t0 + timedelta_minutes (get_fast_change_protection (client w) serial))).
  - by rewrite (can_start_charge_blocked _ _ _ t0) in Hok.
  - by apply (can_start_charge_elapsed _ _ _ t0).
Qed.

(** The three ways [start_charging] can go. *)
Lemma start_charging_blocked serial amps single_phase now w :
  (_can_start_charge serial now w).1 = Ret false ->
  start_charging serial amps single_phase now w
  = (Ret false, (_can_start_charge serial now w).2).
Proof.
  intros Hblocked. unfold start_charging, bind.
  destruct (_can_start_charge serial now w) as [[b|e] w'];
    simpl in *; [|done].
  by injection Hblocked as ->.
Qed.

Lemma start_charging_unknown serial amps single_phase now w :
  (_can_start_charge serial now w).1 = Ret true ->
  evses w !! serial = None ->
  start_charging serial amps single_phase now w
  = (Ret false,
     mkWorld (client w) (evses w) (sent w)
             (log w ++ [(LError, EvseNotFound serial)])%list).
Proof.
  intros Hok Hnone. apply can_start_charge_true_world in Hok.
  unfold start_charging, bind at 1. rewrite Hok. simpl.
  run_monad. by rewrite Hnone.
Qed.

Lemma start_charging_forwarded serial amps single_phase now w evse :
  (_can_start_charge serial now w).1 = Ret true ->
  evses w !! serial = Some evse ->
  start_charging serial amps single_phase now w
  = evse_send serial evse
      (CmdChargeStart (start_charging_amps amps evse) single_phase) w.
Proof.
  intros Hok Hsome. apply can_start_charge_true_world in Hok.
  unfold start_charging, bind at 1. rewrite Hok. simpl.
  run_monad. by rewrite Hsome.
Qed.

(** C1: without a supplied amperage the code picks the configured ceiling
    when it is positive, else the smaller of 16 and the advertised ceiling
    (32 standing in for a non-positive one); a supplied amperage passes
    through; this is the amperage of the command handed to the device. *)
Theorem start_charging_amps_resolution evse (requested : option Z) :
  let configured := Config.max_electricity (config evse) in
  let deviceMax := Info.max_electricity (info evse) in
  start_charging_amps requested evse = resolve requested configured deviceMax
  /\ (requested = None -> 0 < configured ->
      start_charging_amps requested evse = configured)
  /\ (requested = None -> configured <= 0 -> 0 < deviceMax ->
      start_charging_amps requested evse = Z.min deviceMax 16)
  /\ (requested = None -> configured <= 0 -> deviceMax <= 0 ->
      start_charging_amps requested evse = Z.min 32 16)
  /\ (forall amps, requested = Some amps ->
      start_charging_amps requested evse = amps)
  /\ (requested = None -> configured = 10 -> deviceMax = 32 ->
      start_charging_amps requested evse = 10)
  /\ (requested = None -> configured = 0 -> deviceMax = 20 ->
      start_charging_amps requested evse = 16)
  /\ (requested = None -> configured = 0 -> deviceMax = 0 ->
      start_charging_amps requested evse = 16)
  /\ (requested = Some 25 -> start_charging_amps requested evse = 25)
  /\ (forall serial single_phase now w,
        evses w !! serial = Some evse ->
        (_can_start_charge serial now w).1 = Ret true ->
        sent (start_charging serial requested single_phase now w).2
        = (sent w ++ [(serial,
             CmdChargeStart (resolve requested configured deviceMax)
                            single_phase)])%list).
Proof.
  intros configured deviceMax.
  assert (Hres : start_charging_amps requested evse
                 = resolve requested configured deviceMax) by reflexivity.
  split; [exact Hres|].
  repeat split.
  - intros -> Hpos. unfold start_charging_amps, obj_truthy. simpl.
    fold configured. destruct (Z.ltb_spec 0 configured); [done|lia].
  - intros -> Hcfg Hdev. unfold start_charging_amps, obj_truthy. simpl.
    fold configured deviceMax.
    destruct (Z.ltb_spec 0 configured); [lia|].
    destruct (Z.ltb_spec 0 deviceMax); [done|lia].
  - intros -> Hcfg Hdev. unfold start_charging_amps, obj_truthy. simpl.
    fold configured deviceMax.
    destruct (Z.ltb_spec 0 configured); [lia|].
    destruct (Z.ltb_spec 0 deviceMax); [lia|done].
  - by intros amps ->.
  - intros -> Hcfg Hdev. unfold start_charging_amps, obj_truthy. simpl.
    fold configured deviceMax. by rewrite Hcfg.
  - intros -> Hcfg Hdev. unfold start_charging_amps, obj_truthy. simpl.
    fold configured deviceMax. by rewrite Hcfg, Hdev.
  - intros -> Hcfg Hdev. unfold start_charging_amps, obj_truthy. simpl.
    fold configured deviceMax. by rewrite Hcfg, Hdev.
  - by intros ->.
  - intros serial single_phase now w Hsome Hok.
    rewrite (start_charging_forwarded _ _ _ _ _ evse) by done.
    rewrite Hres. apply evse_send_effect.
Qed.

(** C4: a start whose check fails answers [False] and hands nothing to the
    device; and no start, however it ends, changes the recorded stops or
    the protection minutes of any device. *)
Theorem start_charging_never_arms serial amps single_phase now w :
  let r := start_charging serial amps single_phase now w in
  client r.2 = client w
  /\ ((_can_start_charge serial now w).1 = Ret false ->
      r.1 = Ret false /\ sent r.2 = sent w /\ evses r.2 = evses w).
Proof.
  intros r. subst r.
  destruct (can_start_charge_frame serial now w) as (b & records & Hcheck).
  destruct b.
  - split; [|by rewrite Hcheck].
    assert (Hok : (_can_start_charge serial now w).1 = Ret true)
      by by rewrite Hcheck.
    destruct (evses w !! serial) as [evse|] eqn:Hevse.
    + rewrite (start_charging_forwarded _ _ _ _ _ evse) by done.
      apply evse_send_effect.
    + by rewrite start_charging_unknown.
  - assert (Hblocked : (_can_start_charge serial now w).1 = Ret false)
      by by rewrite Hcheck.
    rewrite start_charging_blocked by done. by rewrite Hcheck.
Qed.

(** How [stop_charging] runs on a known device. *)
Lemma stop_charging_known serial now w evse :
  evses w !! serial = Some evse ->
  stop_charging serial now w
  = let sent_world := (evse_send serial evse CmdChargeStop w).2 in
    match (evse_call evse CmdChargeStop).1 with
    | Ret result =>
        if result && String.eqb (get_meta_state evse) "CHARGING"
        then (Ret result,
              mkWorld
                (mkClient (_fast_change_protection (client w))
                          (<[serial := now]> (_last_charge_change (client w))))
                (evses sent_world) (sent sent_world)
                (log w ++ [(LDebug, ChargeStopRecorded serial)])%list)
        else (Ret result, sent_world)
    | Raise e => (Raise e, sent_world)
    end.
Proof.
  intros Hsome. unfold stop_charging, bind at 1. run_monad. rewrite Hsome.
  unfold evse_send, _record_charge_state_change. run_monad.
  destruct (evse_call evse CmdChargeStop) as [[result|e] evse']; simpl; [|done].
  by destruct (result && String.eqb (get_meta_state evse) "CHARGING").
Qed.

(** C2: on a known device the stop command is always handed to the device,
    whatever the guard holds; the stop time is recorded exactly when the
    device answered [True] and its label was [CHARGING] just before;
    otherwise the recorded stops are unchanged.  The protection minutes
    are never changed. *)
Theorem stop_charging_records_stop serial now w evse :
  evses w !! serial = Some evse ->
  let r := stop_charging serial now w in
  let reply := (evse_call evse CmdChargeStop).1 in
  sent r.2 = (sent w ++ [(serial, CmdChargeStop)])%list
  /\ r.1 = reply
  /\ _fast_change_protection (client r.2) = _fast_change_protection (client w)
  /\ (reply = Ret true /\ get_meta_state evse = "CHARGING" ->
      _last_charge_change (client r.2)
      = <[serial := now]> (_last_charge_change (client w)))
  /\ (reply <> Ret true \/ get_meta_state evse <> "CHARGING" ->
      _last_charge_change (client r.2) = _last_charge_change (client w)).
Proof.
  intros Hsome r reply. subst r reply.
  rewrite (stop_charging_known _ _ _ evse) by done. simpl.
  destruct (evse_send_effect serial evse CmdChargeStop w)
    as (_ & Hclient & Hsent & _).
  destruct (evse_call evse CmdChargeStop).1 as [result|e] eqn:Hreply.
  - destruct (String.eqb_spec (get_meta_state evse) "CHARGING") as [Hlabel|Hlabel];
      destruct result; simpl; rewrite ?Hclient;
      repeat split; try done; naive_solver.
  - simpl. rewrite ?Hclient. repeat split; try done.
    by intros [? _].
Qed.

(** C9: on an identifier the registry does not hold, every facade
    operation returns its failure value ([False], or [None] for the
    record lookup); none raises. *)
Theorem unknown_device_fails serial w :
  evses w !! serial = None ->
  (forall password, (login serial password w).1 = Ret false)
  /\ (forall amps single_phase now,
        (start_charging serial amps single_phase now w).1 = Ret false)
  /\ (forall now, (stop_charging serial now w).1 = Ret false)
  /\ (forall amps, (set_max_current serial amps w).1 = Ret false)
  /\ (forall name, (set_name serial name w).1 = Ret false)
  /\ (sync_time serial w).1 = Ret false
  /\ (get_evse serial w).1 = Ret None.
Proof.
  intros Hnone. repeat split; intros.
  - unfold login. run_monad. by rewrite Hnone.
  - destruct (can_start_charge_frame serial now w) as (b & records & Hcheck).
    destruct b.
    + rewrite start_charging_unknown; [done| by rewrite Hcheck | done].
    + rewrite start_charging_blocked; [done| by rewrite Hcheck].
  - unfold stop_charging. run_monad. by rewrite Hnone.
  - unfold set_max_current. run_monad. by rewrite Hnone.
  - unfold set_name. run_monad. by rewrite Hnone.
  - unfold sync_time. run_monad. by rewrite Hnone.
  - unfold get_evse. run_monad. by rewrite Hnone.
Qed.

(** On an unknown identifier nothing is handed to any device and the guard
    is untouched. *)
Lemma unknown_device_sends_nothing serial w :
  evses w !! serial = None ->
  (forall password, sent (login serial password w).2 = sent w)
  /\ (forall amps single_phase now,
        sent (start_charging serial amps single_phase now w).2 = sent w)
  /\ (forall now, sent (stop_charging serial now w).2 = sent w
                  /\ client (stop_charging serial now w).2 = client w)
  /\ (forall amps, sent (set_max_current serial amps w).2 = sent w)
  /\ (forall name, sent (set_name serial name w).2 = sent w)
  /\ sent (sync_time serial w).2 = sent w.
Proof.
  intros Hnone. repeat split; intros.
  - unfold login. run_monad. by rewrite Hnone.
  - destruct (can_start_charge_frame serial now w) as (b & records & Hcheck).
    destruct b.
    + rewrite start_charging_unknown; [done| by rewrite Hcheck | done].
    + rewrite start_charging_blocked; [|by rewrite Hcheck]. by rewrite Hcheck.
  - unfold stop_charging. run_monad. by rewrite Hnone.
  - unfold stop_charging. run_monad. by rewrite Hnone.
  - unfold set_max_current. run_monad. by rewrite Hnone.
  - unfold set_name. run_monad. by rewrite Hnone.
  - unfold sync_time. run_monad. by rewrite Hnone.
Qed.

End FacadeProperties.

Lemma armed_world_device minutes t0 :
  evses (armed_world minutes t0) !! "ABC123" = Some (idle_evse None 0 20).
Proof. unfold armed_world. simpl. by rewrite lookup_singleton_eq. Qed.

Lemma start_charging_amps_resolution_witness :
  @start_charging_amps None (idle_evse None 10 32) = 10
  /\ @start_charging_amps None (idle_evse None 0 20) = 16
  /\ @start_charging_amps None (idle_evse None 0 0) = 16
  /\ @start_charging_amps (Some 25) (idle_evse None 0 0) = 25
  /\ sent (@start_charging (constant_link "IDLE" (Ret true))
             "ABC123" None false 61001000 (armed_world 1 1000)).2
     = [("ABC123", CmdChargeStart 16 false)].
Proof.
  pose (link := constant_link "IDLE" (Ret true)).
  split; [|split; [|split; [|split]]].
  - destruct (@start_charging_amps_resolution link (idle_evse None 10 32) None)
      as (_ & _ & _ & _ & _ & Hex & _).
    apply Hex; reflexivity.
  - destruct (@start_charging_amps_resolution link (idle_evse None 0 20) None)
      as (_ & _ & _ & _ & _ & _ & Hex & _).
    apply Hex; reflexivity.
  - destruct (@start_charging_amps_resolution link (idle_evse None 0 0) None)
      as (_ & _ & _ & _ & _ & _ & _ & Hex & _).
    apply Hex; reflexivity.
  - destruct (@start_charging_amps_resolution link (idle_evse None 0 0) (Some 25))
      as (_ & _ & _ & _ & _ & _ & _ & _ & Hex & _).
    apply Hex; reflexivity.
  - destruct (@start_charging_amps_resolution link (idle_evse None 0 20) None)
      as (_ & _ & _ & _ & _ & _ & _ & _ & _ & Hsent).
    apply (Hsent "ABC123" false 61001000 (armed_world 1 1000)).
    + apply armed_world_device.
    + rewrite (can_start_charge_elapsed _ _ _ 1000); [reflexivity| |].
      * apply armed_world_last_stop.
      * rewrite armed_world_protection. unfold timedelta_minutes. lia.
Defined.

Lemma start_charging_never_arms_witness :
  let r := @start_charging (constant_link "IDLE" (Ret true))
             "ABC123" None false 31000000 (armed_world 1 1000) in
  client r.2 = client (armed_world 1 1000)
  /\ r.1 = Ret false /\ sent r.2 = [] /\ evses r.2 = evses (armed_world 1 1000).
Proof.
  intros r. subst r.
  destruct (@start_charging_never_arms (constant_link "IDLE" (Ret true))
              "ABC123" None false 31000000 (armed_world 1 1000))
    as [Hframe Hblocked].
  split; [exact Hframe|].
  apply Hblocked.
  rewrite (can_start_charge_blocked _ _ _ 1000); [reflexivity| | |].
  - rewrite armed_world_protection. lia.
  - apply armed_world_last_stop.
  - rewrite armed_world_protection. reflexivity.
Defined.

Lemma stop_charging_records_stop_witness :
  let charging := constant_link "CHARGING" (Ret true) in
  let idle := constant_link "IDLE" (Ret true) in
  _last_charge_change
    (client (@stop_charging charging "ABC123" 5000 (armed_world 1 1000)).2)
  = <["ABC123" := 5000]> (_last_charge_change (client (armed_world 1 1000)))
  /\ _last_charge_change
       (client (@stop_charging idle "ABC123" 5000 (armed_world 1 1000)).2)
     = _last_charge_change (client (armed_world 1 1000))
  /\ sent (@stop_charging idle "ABC123" 5000 (armed_world 1 1000)).2
     = [("ABC123", CmdChargeStop)].
Proof.
  intros charging idle. split; [|split].
  - destruct (@stop_charging_records_stop charging "ABC123" 5000
                (armed_world 1 1000) _ (armed_world_device 1 1000))
      as (_ & _ & _ & Hrec & _).
    apply Hrec. split; reflexivity.
  - destruct (@stop_charging_records_stop idle "ABC123" 5000
                (armed_world 1 1000) _ (armed_world_device 1 1000))
      as (_ & _ & _ & _ & Hkeep).
    apply Hkeep. right. discriminate.
  - destruct (@stop_charging_records_stop idle "ABC123" 5000
                (armed_world 1 1000) _ (armed_world_device 1 1000))
      as (Hsent & _).
    exact Hsent.
Defined.

Lemma unknown_device_fails_witness :
  let link := constant_link "IDLE" (Ret true) in
  (@login link "NOPE" "secret" empty_world).1 = Ret false
  /\ (@start_charging link "NOPE" (Some 16) false 0 empty_world).1 = Ret false
  /\ (@stop_charging link "NOPE" 0 empty_world).1 = Ret false
  /\ (@set_max_current link "NOPE" 16 empty_world).1 = Ret false
  /\ (@set_name link "NOPE" "garage" empty_world).1 = Ret false
  /\ (@sync_time link "NOPE" empty_world).1 = Ret false
  /\ (@get_evse link "NOPE" empty_world).1 = Ret None.
Proof.
  intros link.
  destruct (@unknown_device_fails link "NOPE" empty_world (lookup_empty _))
    as (Hlogin & Hstart & Hstop & Hmax & Hname & Hsync & Hget).
  split; [apply Hlogin|]. split; [apply Hstart|]. split; [apply Hstop|].
  split; [apply Hmax|]. split; [apply Hname|]. split; [exact Hsync | exact Hget].
Defined.

(** ** PollingCoordinator *)

Section CoordinatorProperties.
Implicit Types (self : Coordinator)
  (m : gmap string (gmap string PyVal))
  (fetch : Outcome (gmap string (gmap string PyVal))).

Lemma dict_truthy_false_empty m : dict_truthy m = false -> m = ∅.
Proof.
  unfold dict_truthy. intros Hm. apply map_size_empty_iff.
  destruct (Nat.eqb_spec (size m) 0); [done|discriminate].
Qed.

Lemma data_or_empty_published self : data_or_empty self = published self.
Proof.
  unfold data_or_empty, published.
  destruct (data self) as [d|]; simpl; [|done].
  destruct (dict_truthy d) eqn:Hd; [done|].
  symmetry. by apply dict_truthy_false_empty.
Qed.

(** The update method never raises: it returns the fetched mapping, or on
    a failed fetch the published one. *)
Lemma async_update_data_returns self fetch :
  (_async_update_data self fetch).1
  = Ret (match fetch with Ret m => m | Raise _ => published self end).
Proof.
  destruct fetch as [m|err]; simpl.
  - destruct (dict_truthy m) eqn:Hm; simpl; [done|].
    by rewrite (dict_truthy_false_empty m).
  - by rewrite data_or_empty_published.
Qed.

Lemma async_refresh_state self fetch :
  (async_refresh self fetch).1
  = mkCoordinator
      (Some (match fetch with Ret m => m | Raise _ => published self end))
      true.
Proof.
  unfold async_refresh.
  pose proof (async_update_data_returns self fetch) as Hret.
  destruct (_async_update_data self fetch) as [[d|e] records]; simpl in *;
    [|done].
  by injection Hret as ->.
Qed.

(** After any history of ticks the published mapping is the one of the most
    recent successful fetch. *)
Lemma run_ticks_published self fetches :
  published (run_ticks self fetches)
  = foldl (fun acc fetch => match fetch with Ret m => m | Raise _ => acc end)
          (published self) fetches.
Proof.
  revert self. induction fetches as [|fetch fetches IH]; intros self; [done|].
  unfold run_ticks in *. simpl. rewrite IH, async_refresh_state.
  by destruct fetch.
Qed.

Lemma run_ticks_last_fetched fetches :
  published (run_ticks initial_coordinator fetches) = last_fetched fetches.
Proof. by rewrite run_ticks_published. Qed.

(** C6: a tick whose fetch raises publishes the mapping published before
    (the empty mapping if there was none), which after any history of ticks
    is the mapping of the most recent successful fetch, and does not raise;
    a tick whose fetch returns the empty mapping publishes the empty
    mapping. *)
Theorem async_update_data_degrades self fetch :
  (forall err, fetch = Raise err ->
     (forall m, data self = Some m -> (_async_update_data self fetch).1 = Ret m)
     /\ (data self = None -> (_async_update_data self fetch).1 = Ret ∅)
     /\ data (async_refresh self fetch).1 = Some (published self))
  /\ (fetch = Ret ∅ ->
      (_async_update_data self fetch).1 = Ret ∅
      /\ data (async_refresh self fetch).1 = Some ∅)
  /\ (forall history err, fetch = Raise err ->
      data (async_refresh (run_ticks initial_coordinator history) fetch).1
      = Some (last_fetched history)).
Proof.
  split; [|split].
  - intros err ->. rewrite async_update_data_returns, async_refresh_state.
    unfold published. repeat split.
    + by intros m ->.
    + by intros ->.
  - intros ->. by rewrite async_update_data_returns, async_refresh_state.
  - intros history err ->. rewrite async_refresh_state. simpl.
    by rewrite run_ticks_last_fetched.
Qed.

(** A poll tick against the facade publishes the projection of every
    registered device. *)
Lemma poll_publishes_projection `{DeviceLink} self w :
  poll self w = mkCoordinator (Some (_evse_to_dict <$> evses w)) true.
Proof. unfold poll. by rewrite async_refresh_state. Qed.

Lemma run_ticks_snoc self fetches fetch :
  run_ticks self (fetches ++ [fetch])
  = (async_refresh (run_ticks self fetches) fetch).1.
Proof. unfold run_ticks. by rewrite foldl_snoc. Qed.

Lemma run_ticks_flag self fetches fetch :
  last_update_success (run_ticks self (fetches ++ [fetch])) = true.
Proof. by rewrite run_ticks_snoc, async_refresh_state. Qed.

(** C7, as the code has it: a tick whose fetch raised stores exactly what
    a tick that fetched the published mapping stores, with the success
    flag set; so it stores the same as a successful empty fetch exactly
    when the mapping published before was empty, and differs from it
    exactly when that mapping was not empty. *)
Theorem failed_fetch_stored_state self err :
  (async_refresh self (Raise err)).1
    = (async_refresh self (Ret (published self))).1
  /\ last_update_success (async_refresh self (Raise err)).1 = true
  /\ ((async_refresh self (Raise err)).1 = (async_refresh self (Ret ∅)).1
      <-> published self = ∅).
Proof.
  rewrite !async_refresh_state. repeat split; [|by intros ->].
  intros Heq. by injection Heq.
Qed.

End CoordinatorProperties.

Lemma async_update_data_degrades_witness :
  let m : gmap string (gmap string PyVal) := {["ABC123" := ∅]} in
  (_async_update_data (mkCoordinator (Some m) true)
     (Raise (Exception "timeout"))).1 = Ret m
  /\ (_async_update_data initial_coordinator
        (Raise (Exception "timeout"))).1 = Ret ∅
  /\ (_async_update_data (mkCoordinator (Some m) true) (Ret ∅)).1 = Ret ∅.
Proof.
  intros m. split; [|split].
  - destruct (async_update_data_degrades (mkCoordinator (Some m) true)
                (Raise (Exception "timeout"))) as [Hfail _].
    destruct (Hfail _ eq_refl) as (Hsome & _).
    apply Hsome. reflexivity.
  - destruct (async_update_data_degrades initial_coordinator
                (Raise (Exception "timeout"))) as [Hfail _].
    destruct (Hfail _ eq_refl) as (_ & Hnone & _).
    apply Hnone. reflexivity.
  - destruct (async_update_data_degrades (mkCoordinator (Some m) true) (Ret ∅))
      as (_ & Hempty & _).
    apply Hempty. reflexivity.
Defined.

(** C7 fails on the code: from the initial coordinator, a tick whose fetch
    raised and a tick whose fetch returned the empty mapping leave the same
    stored state, so no observation of the stored state tells them apart. *)
Lemma failed_and_empty_fetch_same_state :
  run_ticks initial_coordinator [Raise (Exception "timeout")]
  = run_ticks initial_coordinator [Ret ∅]
  /\ ~ outcomes_distinguishable.
Proof.
  assert (Hsame : run_ticks initial_coordinator [Raise (Exception "timeout")]
                  = run_ticks initial_coordinator [Ret ∅]).
  { unfold run_ticks. simpl. by rewrite !async_refresh_state. }
  split; [exact Hsame|].
  intros [flag Hflag].
  destruct (Hflag [] (Exception "timeout")) as [Hfalse Htrue].
  cbn [app] in Hfalse, Htrue. rewrite Hsame in Hfalse. congruence.
Qed.

Lemma failed_fetch_stored_state_witness :
  (async_refresh initial_coordinator (Raise (Exception "timeout"))).1
  = (async_refresh initial_coordinator (Ret ∅)).1.
Proof.
  apply (failed_fetch_stored_state initial_coordinator (Exception "timeout")).
  reflexivity.
Defined.


(** * Further properties of the client *)

(** ** Cooldown display and protection setting *)

Section GuardExtras.
Implicit Types (w : World) (serial : string) (now : Z).

(** A start check reads the world only through the protection minutes and
    the recorded stop of its own serial. *)
Lemma can_start_charge_depends serial now w1 w2 :
  get_fast_change_protection (client w1) serial
  = get_fast_change_protection (client w2) serial ->
  _last_charge_change (client w1) !! serial
  = _last_charge_change (client w2) !! serial ->
  (_can_start_charge serial now w1).1 = (_can_start_charge serial now w2).1.
Proof.
  intros Hp Hlast. unfold _can_start_charge. run_monad. rewrite Hp, Hlast.
  destruct (_ =? 0); [done|].
  destruct (_last_charge_change (client w2) !! serial); [|done].
  by destruct (_ <? _).
Qed.


(** X2: setting the protection of a serial is read back for that serial,
    changes the protection of no other serial, keeps every recorded stop,
    the registry and the commands sent; a serial never set reads as one
    minute. *)
Theorem protection_set_then_get serial (minutes : Z) w :
  let w' := (set_fast_change_protection serial minutes w).2 in
  get_fast_change_protection (client w') serial = minutes
  /\ (forall other, other <> serial ->
      get_fast_change_protection (client w') other
      = get_fast_change_protection (client w) other)
  /\ _last_charge_change (client w') = _last_charge_change (client w)
  /\ evses w' = evses w
  /\ sent w' = sent w
  /\ (forall never, _fast_change_protection (client w) !! never = None ->
      get_fast_change_protection (client w) never = 1).
Proof.
  unfold set_fast_change_protection, get_fast_change_protection, dict_get.
  run_monad. repeat split.
  - by rewrite lookup_insert_eq.
  - intros other Hother. by rewrite lookup_insert_ne.
  - by intros never ->.
Qed.

End GuardExtras.


Lemma protection_set_then_get_witness :
  get_fast_change_protection
    (client (set_fast_change_protection "ABC123" 5 (armed_world 1 1000)).2)
    "OTHER"
  = get_fast_change_protection (client (armed_world 1 1000)) "OTHER"
  /\ get_fast_change_protection (client empty_world) "OTHER" = 1.
Proof.
  split.
  - destruct (protection_set_then_get "ABC123" 5 (armed_world 1 1000))
      as (_ & Hother & _).
    apply Hother. discriminate.
  - destruct (protection_set_then_get "ABC123" 5 empty_world)
      as (_ & _ & _ & _ & _ & Hnever).
    apply Hnever. apply lookup_empty.
Defined.

(** ** Stops, starts and the other commands *)

Section FacadeExtras.
Context `{DeviceLink}.
Implicit Types (w : World) (serial : string) (now : Z) (evse : EVSE).

(** The world a recorded stop leaves. *)
Lemma stop_charging_recorded serial t w evse :
  evses w !! serial = Some evse ->
  (evse_call evse CmdChargeStop).1 = Ret true ->
  get_meta_state evse = "CHARGING" ->
  stop_charging serial t w
  = (Ret true,
     mkWorld
       (mkClient (_fast_change_protection (client w))
                 (<[serial := t]> (_last_charge_change (client w))))
       (<[serial := (evse_call evse CmdChargeStop).2]> (evses w))
       (sent w ++ [(serial, CmdChargeStop)])%list
       (log w ++ [(LDebug, ChargeStopRecorded serial)])%list).
Proof.
  intros Hsome Hreply Hlabel.
  rewrite (stop_charging_known _ _ _ evse) by done. simpl.
  rewrite Hreply, Hlabel. simpl.
  unfold evse_send. by destruct (evse_call evse CmdChargeStop).
Qed.

(** What [stop_charging] can do to the guard. *)
Lemma stop_charging_guard serial t w :
  _fast_change_protection (client (stop_charging serial t w).2)
  = _fast_change_protection (client w)
  /\ (_last_charge_change (client (stop_charging serial t w).2)
      = _last_charge_change (client w)
      \/ _last_charge_change (client (stop_charging serial t w).2)
         = <[serial := t]> (_last_charge_change (client w))).
Proof.
  destruct (evses w !! serial) as [evse|] eqn:Hevse.
  - rewrite (stop_charging_known _ _ _ evse) by done. simpl.
    destruct (evse_send_effect serial evse CmdChargeStop w)
      as (_ & Hclient & _).
    destruct (evse_call evse CmdChargeStop).1 as [result|e]; simpl.
    + destruct (result && String.eqb (get_meta_state evse) "CHARGING");
        simpl; rewrite ?Hclient; split; auto.
    + rewrite Hclient. split; auto.
  - unfold stop_charging. run_monad. rewrite Hevse. simpl. split; auto.
Qed.

(** X3: after a stop that was recorded at time [t], a start of the same
    device is refused and sends nothing as long as the protection has not
    elapsed since [t]; once it has elapsed, or when the protection is 0, the
    start is handed to the device as the stop left it. *)
Theorem stop_then_start serial t now amps single_phase w evse :
  evses w !! serial = Some evse ->
  (evse_call evse CmdChargeStop).1 = Ret true ->
  get_meta_state evse = "CHARGING" ->
  let p := get_fast_change_protection (client w) serial in
  let evse' := (evse_call evse CmdChargeStop).2 in
  let w1 := (stop_charging serial t w).2 in
  let r := start_charging serial amps single_phase now w1 in
  (p <> 0 -> now < t + timedelta_minutes p ->
   r.1 = Ret false /\ sent r.2 = sent w1 /\ evses r.2 = evses w1)
  /\ (p = 0 \/ t + timedelta_minutes p <= now ->
      let cmd := CmdChargeStart (start_charging_amps amps evse') single_phase in
      r.1 = (evse_call evse' cmd).1
      /\ sent r.2
         = (sent w ++ [(serial, CmdChargeStop); (serial, cmd)])%list).
Proof.
  intros Hsome Hreply Hlabel p evse' w1 r. subst r w1.
  rewrite (stop_charging_recorded _ _ _ evse) by done. simpl.
  set (w1 := mkWorld _ _ _ _).
  assert (Hp1 : get_fast_change_protection (client w1) serial = p) by done.
  assert (Hlast1 : _last_charge_change (client w1) !! serial = Some t)
    by apply lookup_insert_eq.
  assert (Hevse1 : evses w1 !! serial = Some evse') by apply lookup_insert_eq.
  split.
  - intros Hp Hnow.
    assert (Hblocked : (_can_start_charge serial now w1).1 = Ret false).
    { rewrite (can_start_charge_blocked _ _ _ t); [done| | |]; by rewrite ?Hp1. }
    rewrite start_charging_blocked by done.
    rewrite (can_start_charge_blocked _ _ _ t); [done| | |]; by rewrite ?Hp1.
  - intros Hfree. cbv zeta.
    assert (Hok : (_can_start_charge serial now w1).1 = Ret true).
    { destruct Hfree as [Hzero|Helapsed].
      - rewrite can_start_charge_disabled; [done|]. by rewrite Hp1.
      - rewrite (can_start_charge_elapsed _ _ _ t); [done|done|].
        by rewrite Hp1. }
    rewrite (start_charging_forwarded _ _ _ _ _ evse') by done.
    destruct (evse_send_effect serial evse'
      (CmdChargeStart (start_charging_amps amps evse') single_phase) w1)
      as (Hres & _ & Hsent & _).
    split; [done|]. rewrite Hsent. simpl. by rewrite <- app_assoc.
Qed.

(** X4: a stop never changes the start check of another serial, and changes
    the start check of its own serial only if it recorded the stop: a stop
    of an unknown device, a stop the device refused or failed, and a stop of
    a device that was not charging leave every start check as it was. *)
Theorem stop_charging_check_frame serial t w other now :
  let w1 := (stop_charging serial t w).2 in
  (other <> serial ->
   (_can_start_charge other now w1).1 = (_can_start_charge other now w).1)
  /\ (evses w !! serial = None ->
      (_can_start_charge serial now w1).1 = (_can_start_charge serial now w).1)
  /\ (forall evse, evses w !! serial = Some evse ->
      (evse_call evse CmdChargeStop).1 <> Ret true
      \/ get_meta_state evse <> "CHARGING" ->
      (_can_start_charge serial now w1).1 = (_can_start_charge serial now w).1).
Proof.
  intros w1. subst w1.
  destruct (stop_charging_guard serial t w) as [Hprot Hlast].
  split; [|split].
  - intros Hother. apply can_start_charge_depends.
    + unfold get_fast_change_protection. by rewrite Hprot.
    + destruct Hlast as [-> | ->]; [done|]. by rewrite lookup_insert_ne.
  - intros Hnone. apply can_start_charge_depends.
    + unfold get_fast_change_protection. by rewrite Hprot.
    + unfold stop_charging. run_monad. by rewrite Hnone.
  - intros evse Hsome Hcase. apply can_start_charge_depends.
    + unfold get_fast_change_protection. by rewrite Hprot.
    + rewrite (stop_charging_known _ _ _ evse) by done. simpl.
      destruct (evse_send_effect serial evse CmdChargeStop w)
        as (_ & Hclient & _).
      destruct (evse_call evse CmdChargeStop).1 as [result|e]; simpl;
        [|by rewrite Hclient].
      destruct (String.eqb_spec (get_meta_state evse) "CHARGING");
        destruct result; simpl; rewrite ?Hclient; try done.
      destruct Hcase; congruence.
Qed.

(** X5: on a known device, login, set-max-current, set-name and sync-time
    hand exactly one command to the device and answer what it answers (or
    raise what it raises); they never read or change the cooldown guard and
    write no log record. *)
Theorem thin_forwards serial w evse :
  evses w !! serial = Some evse ->
  (forall password, thin_forward (login serial password w) w serial evse
                      (CmdLogin password))
  /\ (forall amps, thin_forward (set_max_current serial amps w) w serial evse
                     (CmdSetMaxElectricity amps))
  /\ (forall name, thin_forward (set_name serial name w) w serial evse
                     (CmdSetName name))
  /\ thin_forward (sync_time serial w) w serial evse CmdSyncTime.
Proof.
  intros Hsome.
  assert (Hsend : forall cmd,
            thin_forward (evse_send serial evse cmd w) w serial evse cmd).
  { intros cmd. unfold thin_forward, evse_send.
    by destruct (evse_call evse cmd). }
  split; [|split; [|split]]; intros.
  - replace (login serial password w)
      with (evse_send serial evse (CmdLogin password) w); [apply Hsend|].
    unfold login. run_monad. by rewrite Hsome.
  - replace (set_max_current serial amps w)
      with (evse_send serial evse (CmdSetMaxElectricity amps) w);
      [apply Hsend|].
    unfold set_max_current. run_monad. by rewrite Hsome.
  - replace (set_name serial name w)
      with (evse_send serial evse (CmdSetName name) w); [apply Hsend|].
    unfold set_name. run_monad. by rewrite Hsome.
  - replace (sync_time serial w)
      with (evse_send serial evse CmdSyncTime w); [apply Hsend|].
    unfold sync_time. run_monad. by rewrite Hsome.
Qed.

(** X6: on an identifier the registry does not hold, login, stop,
    set-max-current, set-name and sync-time do nothing but write one error
    record; a start does the same when its check passes; the record lookup
    changes nothing at all. *)
Theorem unknown_device_only_logs serial w :
  evses w !! serial = None ->
  let logged :=
    mkWorld (client w) (evses w) (sent w)
            (log w ++ [(LError, EvseNotFound serial)])%list in
  (forall password, login serial password w = (Ret false, logged))
  /\ (forall t, stop_charging serial t w = (Ret false, logged))
  /\ (forall amps, set_max_current serial amps w = (Ret false, logged))
  /\ (forall name, set_name serial name w = (Ret false, logged))
  /\ sync_time serial w = (Ret false, logged)
  /\ (forall amps single_phase now,
        (_can_start_charge serial now w).1 = Ret true ->
        start_charging serial amps single_phase now w = (Ret false, logged))
  /\ get_evse serial w = (Ret None, w).
Proof.
  intros Hnone logged. subst logged. repeat split; intros.
  - unfold login. run_monad. by rewrite Hnone.
  - unfold stop_charging. run_monad. by rewrite Hnone.
  - unfold set_max_current. run_monad. by rewrite Hnone.
  - unfold set_name. run_monad. by rewrite Hnone.
  - unfold sync_time. run_monad. by rewrite Hnone.
  - by apply start_charging_unknown.
  - unfold get_evse. run_monad. by rewrite Hnone.
Qed.

(** X7: the mapping of all devices has one record per registered serial,
    each with exactly the published keys; looking a single serial up gives
    the record the mapping holds for it, or nothing when the mapping has
    none; neither read changes the world. *)
Theorem get_all_evses_agrees w :
  exists m,
    get_all_evses w = (Ret m, w)
    /\ dom m = dom (evses w)
    /\ (forall serial, get_evse serial w = (Ret (m !! serial), w))
    /\ (forall serial record, m !! serial = Some record ->
        dom record = list_to_set published_keys).
Proof.
  exists (_evse_to_dict <$> evses w). repeat split.
  - apply dom_fmap_L.
  - intros serial. unfold get_evse. run_monad. rewrite lookup_fmap.
    by destruct (evses w !! serial).
  - intros serial record. rewrite lookup_fmap.
    destruct (evses w !! serial) as [evse|]; simpl; [|done].
    intros [= <-]. apply dom_evse_to_dict.
Qed.

(** The set-max command alone, for the current control. *)
Lemma thin_forward_set_max_current serial w evse amps :
  evses w !! serial = Some evse ->
  thin_forward (set_max_current serial amps w) w serial evse
    (CmdSetMaxElectricity amps).
Proof.
  intros Hsome.
  replace (set_max_current serial amps w)
    with (evse_send serial evse (CmdSetMaxElectricity amps) w).
  - unfold thin_forward, evse_send. by destruct (evse_call evse _).
  - unfold set_max_current. run_monad. by rewrite Hsome.
Qed.

End FacadeExtras.

Lemma stop_then_start_witness :
  let link := constant_link "CHARGING" (Ret true) in
  let w1 := (@stop_charging link "ABC123" 5000 (armed_world 1 1000)).2 in
  ((@start_charging link "ABC123" None false 30005000 w1).1 = Ret false
   /\ sent (@start_charging link "ABC123" None false 30005000 w1).2 = sent w1
   /\ evses (@start_charging link "ABC123" None false 30005000 w1).2 = evses w1)
  /\ sent (@start_charging link "ABC123" None false 60005000 w1).2
     = [("ABC123", CmdChargeStop); ("ABC123", CmdChargeStart 16 false)].
Proof.
  intros link w1. subst w1. split.
  - destruct (@stop_then_start link "ABC123" 5000 30005000 None false
                (armed_world 1 1000) _ (armed_world_device 1 1000)
                eq_refl eq_refl) as [Hblocked _].
    apply Hblocked.
    + rewrite armed_world_protection. discriminate.
    + rewrite armed_world_protection. reflexivity.
  - destruct (@stop_then_start link "ABC123" 5000 60005000 None false
                (armed_world 1 1000) _ (armed_world_device 1 1000)
                eq_refl eq_refl) as [_ Hfree].
    apply Hfree. right. rewrite armed_world_protection. discriminate.
Defined.

Lemma stop_charging_check_frame_witness :
  let idle := constant_link "IDLE" (Ret true) in
  let w1 := (@stop_charging idle "ABC123" 5000 (armed_world 1 1000)).2 in
  (_can_start_charge "OTHER" 6000 w1).1
    = (_can_start_charge "OTHER" 6000 (armed_world 1 1000)).1
  /\ (_can_start_charge "ABC123" 6000 w1).1
     = (_can_start_charge "ABC123" 6000 (armed_world 1 1000)).1.
Proof.
  intros idle w1. subst w1. split.
  - apply (@stop_charging_check_frame idle "ABC123" 5000 (armed_world 1 1000)
             "OTHER" 6000).
    discriminate.
  - destruct (@stop_charging_check_frame idle "ABC123" 5000 (armed_world 1 1000)
                "ABC123" 6000) as (_ & _ & Hidle).
    apply (Hidle _ (armed_world_device 1 1000)). right. discriminate.
Defined.

Lemma thin_forwards_witness :
  let link := constant_link "IDLE" (Ret false) in
  @thin_forward link (@set_max_current link "ABC123" 10 (armed_world 1 1000))
    (armed_world 1 1000) "ABC123" (idle_evse None 0 20) (CmdSetMaxElectricity 10).
Proof.
  intros link.
  apply (@thin_forwards link "ABC123" (armed_world 1 1000) _
           (armed_world_device 1 1000)).
Defined.

Lemma unknown_device_only_logs_witness :
  @sync_time (constant_link "IDLE" (Ret true)) "NOPE" empty_world
  = (Ret false, mkWorld (client empty_world) (evses empty_world)
                        (sent empty_world)
                        (log empty_world ++ [(LError, EvseNotFound "NOPE")])%list).
Proof.
  apply (@unknown_device_only_logs (constant_link "IDLE" (Ret true))
           "NOPE" empty_world (lookup_empty _)).
Defined.

Lemma get_all_evses_agrees_witness :
  let link := constant_link "IDLE" (Ret true) in
  exists m,
    @get_all_evses link (armed_world 1 1000) = (Ret m, armed_world 1 1000)
    /\ forall record, m !! "ABC123" = Some record ->
                      dom record = list_to_set published_keys.
Proof.
  intros link.
  destruct (@get_all_evses_agrees link (armed_world 1 1000))
    as (m & Hall & _ & _ & Hkeys).
  exists m. split; [exact Hall|].
  intros record Hrecord. exact (Hkeys "ABC123" record Hrecord).
Defined.

(** ** Field-for-field projection *)

Section ProjectorExtras.
Context `{DeviceLink}.

Ltac projector_lookup' :=
  unfold _evse_to_dict;
  repeat match goal with
         | E : state _ = _ |- _ => rewrite E
         | E : current_charge _ = _ |- _ => rewrite E
         | |- context [match state ?e with _ => _ end] => destruct (state e)
         | |- context [match current_charge ?e with _ => _ end] =>
             destruct (current_charge e)
         end;
  rewrite ?lookup_dict_update, ?lookup_py_dict.

(** X8: the identity and configuration keys of a record hold the device's
    values whether or not a snapshot or a session is there (no later update
    overwrites them); with a snapshot the electrical keys hold its
    attributes, with a session the session keys hold its attributes. *)
Theorem evse_to_dict_fields evse :
  Forall (fun kv => _evse_to_dict evse !! kv.1 = Some kv.2) [
    ("serial", VStr (Info.serial (info evse)));
    ("ip", Info.ip (info evse));
    ("port", Info.port (info evse));
    ("last_seen", last_seen evse);
    ("online", VBool (is_online evse));
    ("logged_in", VBool (is_logged_in evse));
    ("state", VStr (get_meta_state evse));
    ("brand", Info.brand (info evse));
    ("model", Info.model (info evse));
    ("hardware_version", Info.hardware_version (info evse));
    ("software_version", Info.software_version (info evse));
    ("max_power", Info.max_power (info evse));
    ("max_electricity", VInt (Info.max_electricity (info evse)));
    ("phases", Info.phases (info evse));
    ("configured_max_electricity", VInt (Config.max_electricity (config evse)));
    ("temperature_unit", Config.temperature_unit (config evse)) ]
  /\ (forall st, state evse = Some st ->
      Forall (fun kv => _evse_to_dict evse !! kv.1 = Some kv.2) [
        ("current_power", State.current_power st);
        ("voltage_l1", State.l1_voltage st);
        ("voltage_l2", State.l2_voltage st);
        ("voltage_l3", State.l3_voltage st);
        ("current_l1", State.l1_electricity st);
        ("current_l2", State.l2_electricity st);
        ("current_l3", State.l3_electricity st);
        ("temperature_inner", State.inner_temp st);
        ("temperature_outer", State.outer_temp st);
        ("gun_state", State.gun_state st);
        ("output_state", State.output_state st);
        ("errors", State.errors st) ])
  /\ (forall ch, current_charge evse = Some ch ->
      Forall (fun kv => _evse_to_dict evse !! kv.1 = Some kv.2) [
        ("charge_kwh", Charge.charge_kwh ch);
        ("charge_id", Charge.charge_id ch);
        ("start_date", Charge.start_date ch);
        ("duration_seconds", Charge.duration_seconds ch);
        ("charge_state", Charge.current_state ch) ]).
Proof.
  split; [|split].
  - repeat (apply Forall_cons; split; [projector_lookup'; reflexivity|]).
    apply Forall_nil_2.
  - intros st Hst.
    repeat (apply Forall_cons; split; [projector_lookup'; reflexivity|]).
    apply Forall_nil_2.
  - intros ch Hch.
    repeat (apply Forall_cons; split; [projector_lookup'; reflexivity|]).
    apply Forall_nil_2.
Qed.

End ProjectorExtras.

(** ** The number entities *)

Section EntityExtras.
Context `{DeviceLink}.
Implicit Types (w : World) (serial : string) (self : Coordinator).

Lemma evse_data_after_poll self w serial :
  evse_data (poll self w) serial
  = Ret (match evses w !! serial with
         | Some evse => _evse_to_dict evse
         | None => ∅
         end).
Proof.
  unfold evse_data. rewrite poll_publishes_projection. simpl.
  unfold dict_get. rewrite lookup_fmap. by destruct (evses w !! serial).
Qed.

Lemma evse_to_dict_online evse :
  _evse_to_dict evse !! "online" = Some (VBool (is_online evse))
  /\ _evse_to_dict evse !! "logged_in" = Some (VBool (is_logged_in evse))
  /\ _evse_to_dict evse !! "configured_max_electricity"
     = Some (VInt (Config.max_electricity (config evse))).
Proof.
  unfold _evse_to_dict.
  destruct (state evse), (current_charge evse);
    rewrite ?lookup_dict_update, ?lookup_py_dict; by repeat split.
Qed.

(** X9: after a poll, the current control of a registered device is
    available exactly when the device is online and logged in, and its
    protection control exactly when it is online; for a serial the registry
    does not hold both are unavailable. *)
Theorem available_after_poll self w serial :
  (forall evse, evses w !! serial = Some evse ->
     current_control_available (poll self w) serial
     = Ret (VBool (is_online evse && is_logged_in evse))
     /\ protection_available (poll self w) serial
        = Ret (VBool (is_online evse)))
  /\ (evses w !! serial = None ->
      current_control_available (poll self w) serial = Ret (VBool false)
      /\ protection_available (poll self w) serial = Ret (VBool false)).
Proof.
  unfold current_control_available, protection_available.
  rewrite evse_data_after_poll. split.
  - intros evse ->. unfold dict_get.
    destruct (evse_to_dict_online evse) as (-> & -> & _).
    by destruct (is_online evse).
  - intros ->. unfold dict_get. by rewrite !lookup_empty.
Qed.

(** X10: what the current control shows after a poll.  A restored value
    is shown whatever the device reports; with the attribute holding [None]
    the configured ceiling of a registered device is shown, and 6 for a
    serial the registry does not hold.  A control constructed and added
    without restorable value has no [_restored_value] and reading its value
    raises; added with one, it shows that value. *)
Theorem current_control_native_value_shown self w serial :
  (forall x, current_control_native_value (Assigned (Some x)) (poll self w) serial
             = Ret (NumFloat x))
  /\ (forall evse, evses w !! serial = Some evse ->
      current_control_native_value (Assigned None) (poll self w) serial
      = Ret (NumPy (VInt (Config.max_electricity (config evse)))))
  /\ (evses w !! serial = None ->
      current_control_native_value (Assigned None) (poll self w) serial
      = Ret (NumPy (VInt 6)))
  /\ (forall last_number_data,
      current_control_native_value
        (current_control_added_to_hass Unset last_number_data)
        (poll self w) serial
      = match last_number_data with
        | Some (Some x) => Ret (NumFloat x)
        | _ => Raise (Exception "AttributeError")
        end).
Proof.
  unfold current_control_native_value. rewrite evse_data_after_poll.
  split; [done|]. split; [|split].
  - intros evse ->. unfold dict_get.
    by destruct (evse_to_dict_online evse) as (_ & _ & ->).
  - intros ->. unfold dict_get. by rewrite lookup_empty.
  - by intros [[x|]|].
Qed.

(** X11: setting the current control hands the device one set-max command
    carrying the value truncated toward zero (an integral value as it is),
    asks for a refresh exactly when the device answered [True], and leaves
    the cooldown guard alone; for a serial the registry does not hold
    nothing is sent and no refresh is asked for. *)
Theorem current_control_set_forwards serial value w :
  let r := current_control_set_native_value serial value w in
  client r.2 = client w
  /\ (forall evse, evses w !! serial = Some evse ->
      let reply := (evse_call evse (CmdSetMaxElectricity (py_int value))).1 in
      sent r.2 = (sent w ++ [(serial, CmdSetMaxElectricity (py_int value))])%list
      /\ (r.1 = Ret true <-> reply = Ret true)
      /\ (reply = Ret false -> r.1 = Ret false)
      /\ (forall e, reply = Raise e -> r.1 = Raise e))
  /\ (evses w !! serial = None -> r.1 = Ret false /\ sent r.2 = sent w)
  /\ (forall n : Z, py_int (inject_Z n) = n).
Proof.
  intros r. subst r. unfold current_control_set_native_value.
  assert (Hint : forall n : Z, py_int (inject_Z n) = n).
  { intros n. unfold py_int. simpl. apply Z.quot_1_r. }
  destruct (evses w !! serial) as [evse|] eqn:Hevse.
  - destruct (thin_forward_set_max_current serial w evse (py_int value) Hevse)
      as (Hres & Hsent & _ & Hclient & _).
    unfold bind.
    destruct (set_max_current serial (py_int value) w) as [[success|e] w'];
      simpl in *.
    + replace ((if success then ret true else ret false) w')
        with (Ret success, w') by by destruct success.
      simpl. split; [done|]. split; [|by split].
      intros evse0 [= <-]. cbv zeta. rewrite <- Hres.
      split; [done|]. split; [split; congruence|].
      split; [congruence|]. intros e He. discriminate.
    + split; [done|]. split; [|by split].
      intros evse0 [= <-]. cbv zeta. rewrite <- Hres.
      split; [done|]. split; [split; congruence|].
      split; [discriminate|]. by intros e' [= ->].
  - unfold set_max_current. run_monad. rewrite Hevse. simpl.
    split; [done|]. split; [done|]. by split.
Qed.

(** X12: a protection control created while the client holds no protection
    for its serial shows, after any sequence of settings, the protection
    the client enforces for that serial; setting it never touches a recorded
    stop; and setting a value that truncates to 0 lets every start check of
    that serial pass at once. *)
Theorem protection_entity_shows_enforced serial (values : list Q) w :
  _fast_change_protection (client w) !! serial = None ->
  let final :=
    protection_entity_run serial values (initial_protection_minutes, w) in
  final.1 = get_fast_change_protection (client final.2) serial
  /\ _last_charge_change (client final.2) = _last_charge_change (client w)
  /\ (forall value now, py_int value = 0 ->
      (_can_start_charge serial now
         (protection_set_native_value serial value final.2).2.2).1 = Ret true).
Proof.
  intros Hnone final. subst final.
  assert (Hinv : forall (st : Z * World),
    st.1 = get_fast_change_protection (client st.2) serial ->
    (protection_entity_run serial values st).1
    = get_fast_change_protection
        (client (protection_entity_run serial values st).2) serial
    /\ _last_charge_change (client (protection_entity_run serial values st).2)
       = _last_charge_change (client st.2)).
  { induction values as [|value values IH]; intros st Hst; [done|].
    unfold protection_entity_run in *. simpl.
    destruct (IH (py_int value,
                  (set_fast_change_protection serial (py_int value) st.2).2))
      as [Hshown Hstops].
    - simpl. unfold set_fast_change_protection, get_fast_change_protection,
        dict_get. run_monad. by rewrite lookup_insert_eq.
    - split; [exact Hshown|]. etrans; [exact Hstops|].
      apply set_fast_change_protection_keeps_stops. }
  destruct (Hinv (initial_protection_minutes, w)) as [Hshown Hstops].
  { simpl. unfold get_fast_change_protection, dict_get. by rewrite Hnone. }
  split; [exact Hshown|]. split; [exact Hstops|].
  intros value now Hzero. unfold protection_set_native_value. simpl.
  rewrite Hzero. rewrite can_start_charge_disabled; [done|].
  unfold set_fast_change_protection, get_fast_change_protection, dict_get.
  run_monad. by rewrite lookup_insert_eq.
Qed.

End EntityExtras.

(** ** Callbacks *)

Section CallbackExtras.
Context {V : Type}.
Implicit Types (d : list (string * V)) (k : string).

Lemma odict_get_set_eq k (v : V) d : odict_get k (odict_set k v d) = Some v.
Proof.
  induction d as [|[k' v'] d IH]; simpl.
  - by rewrite String.eqb_refl.
  - destruct (String.eqb_spec k' k) as [->|Hne]; simpl.
    + by rewrite String.eqb_refl.
    + destruct (String.eqb_spec k' k); [done|]. exact IH.
Qed.

Lemma odict_get_set_ne k k0 (v : V) d :
  k0 <> k -> odict_get k0 (odict_set k v d) = odict_get k0 d.
Proof.
  intros Hne. induction d as [|[k' v'] d IH]; simpl.
  - destruct (String.eqb_spec k k0); [congruence|done].
  - destruct (String.eqb_spec k' k) as [->|Hne']; simpl.
    + destruct (String.eqb_spec k k0); [congruence|done].
    + by rewrite IH.
Qed.

Lemma odict_get_None k d : odict_get k d = None <-> k ∉ d.*1.
Proof.
  induction d as [|[k' v'] d IH]; simpl.
  - split; [intros _; apply not_elem_of_nil | done].
  - rewrite not_elem_of_cons.
    destruct (String.eqb_spec k' k) as [->|Hne]; [naive_solver|].
    rewrite IH. naive_solver.
Qed.

Lemma odict_set_names k (v : V) d :
  (odict_set k v d).*1 = if decide (k ∈ d.*1) then d.*1 else (d.*1 ++ [k])%list.
Proof.
  induction d as [|[k' v'] d IH].
  - rewrite decide_False by apply not_elem_of_nil. done.
  - cbn [odict_set].
    destruct (String.eqb_spec k' k) as [->|Hne]; rewrite !fmap_cons; cbn [fst].
    + rewrite decide_True by by left. done.
    + rewrite IH. destruct (decide (k ∈ d.*1)) as [Hin|Hnin].
      * rewrite decide_True by by right. done.
      * rewrite decide_False; [done|].
        rewrite not_elem_of_cons. naive_solver.
Qed.

Lemma odict_pop_absent k d : k ∉ d.*1 -> odict_pop k d = d.
Proof.
  induction d as [|[k' v'] d IH]; simpl; [done|].
  rewrite not_elem_of_cons. intros [Hne Hnin].
  destruct (String.eqb_spec k' k); [congruence|]. by rewrite IH.
Qed.

Lemma filter_ne_absent k (names : list string) :
  k ∉ names -> filter (fun k' => k' <> k) names = names.
Proof.
  induction names as [|k0 names IH]; [done|].
  rewrite not_elem_of_cons. intros [Hne Hnin].
  rewrite filter_cons_True by done. by rewrite IH.
Qed.

Lemma odict_pop_names k d :
  NoDup d.*1 -> (odict_pop k d).*1 = filter (fun k' => k' <> k) d.*1.
Proof.
  induction d as [|[k' v'] d IH]; [done|].
  rewrite fmap_cons. cbn [fst odict_pop].
  intros [Hnin Hnodup]%NoDup_cons.
  destruct (String.eqb_spec k' k) as [->|Hne].
  - rewrite filter_cons_False by naive_solver.
    by rewrite filter_ne_absent.
  - rewrite filter_cons_True by done. rewrite fmap_cons. cbn [fst].
    by rewrite IH.
Qed.

Lemma odict_get_pop_eq k d : NoDup d.*1 -> odict_get k (odict_pop k d) = None.
Proof.
  intros Hnodup. apply odict_get_None. rewrite odict_pop_names by done.
  rewrite list_elem_of_filter. naive_solver.
Qed.

Lemma odict_get_pop_ne k k0 d :
  k0 <> k -> odict_get k0 (odict_pop k d) = odict_get k0 d.
Proof.
  intros Hne. induction d as [|[k' v'] d IH]; simpl; [done|].
  destruct (String.eqb_spec k' k) as [->|Hne']; simpl.
  - destruct (String.eqb_spec k k0); [congruence|done].
  - by rewrite IH.
Qed.

Lemma odict_set_NoDup k (v : V) d : NoDup d.*1 -> NoDup (odict_set k v d).*1.
Proof.
  intros Hnodup. rewrite odict_set_names.
  destruct (decide (k ∈ d.*1)); [done|].
  apply NoDup_app. split; [done|]. split; [|apply NoDup_singleton].
  intros x Hx ->%list_elem_of_singleton. done.
Qed.

Lemma odict_pop_NoDup k d : NoDup d.*1 -> NoDup (odict_pop k d).*1.
Proof.
  intros Hnodup. rewrite odict_pop_names by done. by apply NoDup_filter.
Qed.

End CallbackExtras.

(** X13: registering a callback under a name makes it the one found under
    that name and leaves every other name as it was; a new name goes last
    and an existing one keeps its place; removing a name leaves nothing
    under it and keeps the others; removing a name that is not there changes
    nothing; names stay distinct. *)
Theorem callbacks_add_remove (callbacks : list (string * Callback))
    (name : string) (callback : Callback) :
  NoDup callbacks.*1 ->
  odict_get name (add_callback callbacks name callback) = Some callback
  /\ (forall other, other <> name ->
      odict_get other (add_callback callbacks name callback)
      = odict_get other callbacks
      /\ odict_get other (remove_callback callbacks name)
         = odict_get other callbacks)
  /\ (add_callback callbacks name callback).*1
     = (if decide (name ∈ callbacks.*1) then callbacks.*1
        else (callbacks.*1 ++ [name])%list)
  /\ odict_get name (remove_callback callbacks name) = None
  /\ (name ∉ callbacks.*1 -> remove_callback callbacks name = callbacks)
  /\ remove_callback (add_callback callbacks name callback) name
     = remove_callback callbacks name
  /\ NoDup (add_callback callbacks name callback).*1
  /\ NoDup (remove_callback callbacks name).*1.
Proof.
  intros Hnodup. unfold add_callback, remove_callback.
  split; [apply odict_get_set_eq|].
  split; [intros other Hother; split;
          [by apply odict_get_set_ne | by apply odict_get_pop_ne]|].
  split; [apply odict_set_names|].
  split; [by apply odict_get_pop_eq|].
  split; [apply odict_pop_absent|].
  split; [|split; [by apply odict_set_NoDup | by apply odict_pop_NoDup]].
  clear Hnodup. induction callbacks as [|[k' v'] callbacks IH]; simpl.
  - by rewrite String.eqb_refl.
  - destruct (String.eqb_spec k' name) as [->|Hne]; simpl.
    + by rewrite String.eqb_refl.
    + destruct (String.eqb_spec k' name); [done|]. by rewrite IH.
Qed.

Section NotifyExtras.
Context `{DeviceLink}.
Implicit Types (callbacks : list (string * Callback)).

Lemma notify_callbacks_names callbacks serial evse_data :
  (notify_callbacks callbacks serial evse_data).1.*1 = callbacks.*1.
Proof.
  revert evse_data.
  induction callbacks as [|[name callback] callbacks IH]; intros evse_data;
    [done|].
  cbn [notify_callbacks]. specialize (IH (callback serial evse_data).2).
  destruct (callback serial evse_data) as [r evse_data'].
  destruct (notify_callbacks callbacks serial evse_data')
    as [awaited caught] eqn:Hrest.
  cbn [fst snd] in *. rewrite Hrest in IH.
  rewrite !fmap_cons. cbn [fst]. by f_equal.
Qed.

Lemma notify_callbacks_caught callbacks serial evse_data :
  (length (notify_callbacks callbacks serial evse_data).2
   <= length callbacks)%nat.
Proof.
  revert evse_data.
  induction callbacks as [|[name callback] callbacks IH]; intros evse_data;
    [done|].
  cbn [notify_callbacks]. specialize (IH (callback serial evse_data).2).
  destruct (callback serial evse_data) as [[?|e] evse_data'];
    destruct (notify_callbacks callbacks serial evse_data')
      as [awaited caught] eqn:Hrest;
    cbn [fst snd] in *; rewrite Hrest in IH; simpl in *; lia.
Qed.

Lemma notify_callbacks_unchanged callbacks serial evse_data :
  (forall binding s d, binding ∈ callbacks -> (binding.2 s d).2 = d) ->
  notify_callbacks callbacks serial evse_data
  = ((fun binding => (binding.1, evse_data)) <$> callbacks,
     omap (callback_raises serial evse_data) callbacks).
Proof.
  induction callbacks as [|[name callback] callbacks IH]; intros Hkeep;
    [done|].
  cbn [notify_callbacks].
  pose proof (Hkeep (name, callback) serial evse_data
                (list_elem_of_here _ _)) as Hsame.
  simpl in Hsame.
  rewrite fmap_cons. cbn [omap list_omap]. unfold callback_raises at 1. simpl.
  destruct (callback serial evse_data) as [r evse_data']. simpl in *. subst.
  rewrite IH; [by destruct r|].
  intros binding s d Hin. apply Hkeep. by right.
Qed.

(** X14: an event is handed to every registered callback once, in the order
    of registration, also after one of them raised; the first receives the
    projection of the device; the exceptions caught are at most one per
    callback; and if no callback changes the record it is handed, every
    callback receives the projection and the exceptions caught are exactly
    those the callbacks raise on it. *)
Theorem handle_evse_event_notifies_all callbacks event evse :
  let r := _handle_evse_event callbacks event evse in
  r.1.*1 = callbacks.*1
  /\ (length r.2 <= length callbacks)%nat
  /\ (forall first rest, r.1 = first :: rest -> first.2 = _evse_to_dict evse)
  /\ ((forall binding s d, binding ∈ callbacks -> (binding.2 s d).2 = d) ->
      Forall (fun awaited => awaited.2 = _evse_to_dict evse) r.1
      /\ r.2 = omap (callback_raises (Info.serial (info evse))
                       (_evse_to_dict evse)) callbacks).
Proof.
  intros r. subst r. unfold _handle_evse_event.
  split; [apply notify_callbacks_names|].
  split; [apply notify_callbacks_caught|]. split.
  - destruct callbacks as [|[name callback] callbacks]; [done|].
    cbn [notify_callbacks].
    destruct (callback _ _) as [r evse_data'].
    destruct (notify_callbacks callbacks _ evse_data') as [awaited caught].
    simpl. by intros first rest [= <- _].
  - intros Hkeep. rewrite notify_callbacks_unchanged by done. simpl.
    split; [|done]. apply Forall_fmap, Forall_forall. done.
Qed.

End NotifyExtras.

(** ** Starting, stopping, setting up and unloading *)

Section LifecycleExtras.
Implicit Types (comm : Communicator) (rt : Runtime).

(** X15: starting a client that is running calls nothing and changes
    nothing; a start that returns leaves the client running, so that any
    further start is such a no-op; when the communicator fails to start,
    the exception is raised again and the client stays not running, with one
    error logged; when only the registration of the callback fails, the
    exception is raised again but the client is left marked as running. *)
Theorem start_idempotent comm port rt :
  (running rt = true -> start comm port rt = (Ret tt, rt))
  /\ ((start comm port rt).1 = Ret tt ->
      running (start comm port rt).2 = true
      /\ forall comm' port',
           start comm' port' (start comm port rt).2
           = (Ret tt, (start comm port rt).2))
  /\ (forall e, running rt = false -> comm_start comm = Raise e ->
      (start comm port rt).1 = Raise e
      /\ running (start comm port rt).2 = false
      /\ comm_calls (start comm port rt).2 = (comm_calls rt ++ [CommStart])%list
      /\ lifecycle_log (start comm port rt).2
         = (lifecycle_log rt ++ [(LError, ClientStartError e)])%list)
  /\ (forall e, running rt = false -> comm_start comm = Ret tt ->
      comm_add_callback comm = Raise e ->
      (start comm port rt).1 = Raise e
      /\ running (start comm port rt).2 = true)
  /\ (running rt = false -> comm_start comm = Ret tt ->
      comm_add_callback comm = Ret tt ->
      start comm port rt
      = (Ret tt,
         mkRuntime true
           (comm_calls rt ++ [CommStart; CommAddCallback "evse_client"])%list
           (lifecycle_log rt ++ [(LInfo, ClientStarted port)])%list)).
Proof.
  unfold start. split; [by intros ->|]. split.
  - destruct (running rt) eqn:Hrun.
    + intros _. simpl. split; [done|]. intros comm' port'.
      unfold start. by rewrite Hrun.
    + destruct (comm_start comm) as [[]|e]; [|done].
      destruct (comm_add_callback comm) as [[]|e]; [|done].
      intros _. by split.
  - split; [by intros e -> ->|]. split.
    + by intros e -> -> ->.
    + intros -> -> ->. by rewrite <- app_assoc.
Qed.

(** X16: the setup goes on past the start of the client only with a client
    marked as running, and gives up (answers [False]) exactly when the
    client was not running and its start raised; in that case one more error
    is logged. *)
Theorem setup_start_client_outcome comm port rt :
  let r := setup_start_client comm port rt in
  (r.1 = None \/ r.1 = Some false)
  /\ (r.1 = None -> running r.2 = true)
  /\ (r.1 = Some false <->
      running rt = false /\ exists e, (start comm port rt).1 = Raise e)
  /\ (running rt = true -> r = (None, rt)).
Proof.
  intros r. subst r. unfold setup_start_client.
  destruct (running rt) eqn:Hrun; simpl.
  { repeat split; try done; auto. by intros [? _]. }
  assert (Hret : (start comm port rt).1 = Ret tt ->
                 running (start comm port rt).2 = true).
  { unfold start. rewrite Hrun.
    destruct (comm_start comm) as [[]|e]; [|done].
    by destruct (comm_add_callback comm) as [[]|e]. }
  destruct (start comm port rt) as [[[]|e] rt'] eqn:Hstart; simpl in *.
  - split; [by left|]. split; [intros _; by apply Hret|].
    split; [|done]. split; [done|]. by intros [_ [e ?]].
  - split; [by right|]. split; [done|]. split; [|done].
    split; [|done]. intros _. split; [done|]. by exists e.
Qed.

Lemma dict_truthy_false_empty_gen {D} (d : gmap string D) :
  dict_truthy d = false -> d = ∅.
Proof.
  unfold dict_truthy. intros Hd. apply map_size_empty_iff.
  destruct (Nat.eqb_spec (size d) 0); [done|discriminate].
Qed.

(** X17: unloading an entry whose platforms did not unload changes nothing;
    otherwise the entry is removed and the others are kept, and the client
    is stopped exactly when no entry is left: then it is marked as not
    running and the communicator is told to drop the callback and, unless
    that raised, to stop; with entries left the client is not touched.
    Unloading an entry that is not stored raises. *)
Theorem unload_stops_with_last_entry {D} comm entry_id
    (domain : gmap string D) rt :
  async_unload_entry comm false entry_id domain rt = (Ret false, domain, rt)
  /\ (domain !! entry_id = None ->
      async_unload_entry comm true entry_id domain rt
      = (Raise (Exception "KeyError"), domain, rt))
  /\ (forall d, domain !! entry_id = Some d ->
      let r := async_unload_entry comm true entry_id domain rt in
      r.1.2 = delete entry_id domain
      /\ (delete entry_id domain <> ∅ -> r.1.1 = Ret true /\ r.2 = rt)
      /\ (delete entry_id domain = ∅ ->
          r.1.1 = match (stop comm rt).1 with
                  | Ret _ => Ret true
                  | Raise e => Raise e
                  end
          /\ r.2 = (stop comm rt).2
          /\ running r.2 = false
          /\ exists later,
               comm_calls r.2
               = (comm_calls rt ++ CommRemoveCallback "evse_client" :: later)%list
               /\ (later = [] \/ later = [CommStop]))).
Proof.
  split; [done|]. split.
  - intros Hnone. unfold async_unload_entry. by rewrite Hnone.
  - intros d Hsome r. subst r. unfold async_unload_entry. rewrite Hsome.
    destruct (dict_truthy (delete entry_id domain)) eqn:Htruthy; simpl.
    + split; [done|]. split; [done|].
      intros Hempty. rewrite Hempty in Htruthy. done.
    + apply dict_truthy_false_empty_gen in Htruthy.
      split; [by destruct (stop comm rt) as [[[]|?] ?]|].
      split; [done|]. intros _.
      unfold stop.
      destruct (comm_remove_callback comm) as [[]|e]; simpl.
      * destruct (comm_stop comm) as [[]|e]; simpl;
          (repeat split; try done);
          exists [CommStop]; rewrite <- app_assoc; auto.
      * repeat split; try done. exists []. auto.
Qed.

End LifecycleExtras.

Section SetupLoginExtras.
Context `{DeviceLink}.
Implicit Types (w : World) (serial password : string).


Lemma total_sleep_app events later :
  total_sleep (events ++ later) = total_sleep events + total_sleep later.
Proof.
  induction events as [|[] events IH]; simpl; lia.
Qed.




End SetupLoginExtras.

(** ** Examples for the further properties *)

Lemma evse_to_dict_fields_witness :
  let link := constant_link "CHARGING" (Ret true) in
  @_evse_to_dict link charging_evse !! "current_l1" = Some (VInt 10)
  /\ @_evse_to_dict link charging_evse !! "charge_state" = Some (VInt 14).
Proof.
  intros link.
  destruct (@evse_to_dict_fields link charging_evse) as (_ & Hstate & Hcharge).
  split.
  - pose proof (Hstate _ eq_refl) as Hall.
    rewrite Forall_forall in Hall.
    apply (Hall ("current_l1", VInt 10)).
    do 4 apply list_elem_of_further. apply list_elem_of_here.
  - pose proof (Hcharge _ eq_refl) as Hall.
    rewrite Forall_forall in Hall.
    apply (Hall ("charge_state", VInt 14)).
    do 4 apply list_elem_of_further. apply list_elem_of_here.
Defined.

Lemma armed_world_no_other minutes t0 :
  evses (armed_world minutes t0) !! "NOPE" = None.
Proof. unfold armed_world. simpl. by rewrite lookup_singleton_ne. Qed.

Lemma available_after_poll_witness :
  let link := constant_link "IDLE" (Ret true) in
  let c := @poll link initial_coordinator (armed_world 1 1000) in
  (current_control_available c "ABC123" = Ret (VBool true)
   /\ protection_available c "ABC123" = Ret (VBool true))
  /\ (current_control_available c "NOPE" = Ret (VBool false)
      /\ protection_available c "NOPE" = Ret (VBool false)).
Proof.
  intros link c. subst c. split.
  - destruct (@available_after_poll link initial_coordinator
                (armed_world 1 1000) "ABC123") as [Hknown _].
    exact (Hknown _ (armed_world_device 1 1000)).
  - destruct (@available_after_poll link initial_coordinator
                (armed_world 1 1000) "NOPE") as [_ Hunknown].
    exact (Hunknown (armed_world_no_other 1 1000)).
Defined.

Lemma current_control_native_value_shown_witness :
  let link := constant_link "IDLE" (Ret true) in
  let c := @poll link initial_coordinator (armed_world 1 1000) in
  current_control_native_value (Assigned None) c "ABC123"
    = Ret (NumPy (VInt 0))
  /\ current_control_native_value (Assigned None) c "NOPE"
     = Ret (NumPy (VInt 6)).
Proof.
  intros link c. subst c.
  destruct (@current_control_native_value_shown link initial_coordinator
              (armed_world 1 1000) "ABC123") as (_ & Hknown & _).
  destruct (@current_control_native_value_shown link initial_coordinator
              (armed_world 1 1000) "NOPE") as (_ & _ & Hunknown & _).
  split.
  - exact (Hknown _ (armed_world_device 1 1000)).
  - exact (Hunknown (armed_world_no_other 1 1000)).
Defined.

Lemma current_control_set_forwards_witness :
  let link := constant_link "IDLE" (Ret true) in
  let r := @current_control_set_native_value link "ABC123" (15 # 2)
             (armed_world 1 1000) in
  sent r.2 = [("ABC123", CmdSetMaxElectricity 7)]
  /\ r.1 = Ret true
  /\ (@current_control_set_native_value link "NOPE" (15 # 2)
        (armed_world 1 1000)).1 = Ret false.
Proof.
  intros link r. subst r.
  destruct (@current_control_set_forwards link "ABC123" (15 # 2)
              (armed_world 1 1000)) as (_ & Hknown & _).
  destruct (Hknown _ (armed_world_device 1 1000)) as (Hsent & Hrefresh & _).
  split; [exact Hsent|]. split; [by apply Hrefresh|].
  destruct (@current_control_set_forwards link "NOPE" (15 # 2)
              (armed_world 1 1000)) as (_ & _ & Hunknown & _).
  apply Hunknown. apply armed_world_no_other.
Defined.

Lemma protection_entity_shows_enforced_witness :
  let final :=
    protection_entity_run "ABC123" [5 # 1; 1 # 2]
      (initial_protection_minutes, empty_world) in
  final.1 = get_fast_change_protection (client final.2) "ABC123".
Proof.
  intros final. subst final.
  apply (protection_entity_shows_enforced "ABC123" [5 # 1; 1 # 2]
           empty_world (lookup_empty _)).
Defined.

Lemma callbacks_add_remove_witness :
  odict_get "ui" (add_callback [("log", quiet_callback)] "ui" raising_callback)
  = Some raising_callback
  /\ odict_get "log" (remove_callback [("log", quiet_callback)] "log") = None.
Proof.
  split.
  - apply (callbacks_add_remove [("log", quiet_callback)] "ui" raising_callback).
    apply NoDup_singleton.
  - apply (callbacks_add_remove [("log", quiet_callback)] "log" quiet_callback).
    apply NoDup_singleton.
Defined.

Lemma handle_evse_event_notifies_all_witness :
  let link := constant_link "IDLE" (Ret true) in
  let callbacks := [("first", raising_callback); ("second", quiet_callback)] in
  let r := @_handle_evse_event link callbacks "changed" charging_evse in
  Forall (fun awaited => awaited.2 = @_evse_to_dict link charging_evse) r.1
  /\ r.2 = omap (callback_raises "ABC123" (@_evse_to_dict link charging_evse))
             callbacks.
Proof.
  intros link callbacks r. subst r.
  apply (@handle_evse_event_notifies_all link callbacks "changed" charging_evse).
  intros binding s d Hin. subst callbacks.
  apply elem_of_cons in Hin as [->|Hin]; [reflexivity|].
  apply list_elem_of_singleton in Hin as ->. reflexivity.
Defined.

Lemma start_idempotent_witness :
  (start failing_communicator 28376 stopped_runtime).1
    = Raise (Exception "OSError")
  /\ running (start failing_communicator 28376 stopped_runtime).2 = false
  /\ start working_communicator 28376 stopped_runtime
     = (Ret tt,
        mkRuntime true [CommStart; CommAddCallback "evse_client"]
                  [(LInfo, ClientStarted 28376)]).
Proof.
  destruct (start_idempotent failing_communicator 28376 stopped_runtime)
    as (_ & _ & Hfail & _).
  destruct (Hfail (Exception "OSError") eq_refl eq_refl) as (Hres & Hrun & _).
  split; [exact Hres|]. split; [exact Hrun|].
  destruct (start_idempotent working_communicator 28376 stopped_runtime)
    as (_ & _ & _ & _ & Hok).
  exact (Hok eq_refl eq_refl eq_refl).
Defined.

Lemma setup_start_client_outcome_witness :
  running (setup_start_client working_communicator 28376 stopped_runtime).2
    = true
  /\ (setup_start_client failing_communicator 28376 stopped_runtime).1
     = Some false.
Proof.
  split.
  - apply (setup_start_client_outcome working_communicator 28376 stopped_runtime).
    reflexivity.
  - apply (setup_start_client_outcome failing_communicator 28376 stopped_runtime).
    split; [reflexivity|]. exists (Exception "OSError"). reflexivity.
Defined.

Lemma unload_stops_with_last_entry_witness :
  let running_runtime :=
    mkRuntime true [CommStart; CommAddCallback "evse_client"] [] in
  let domain : gmap string unit := {["entry-1" := tt]} in
  running (async_unload_entry working_communicator true "entry-1" domain
             running_runtime).2 = false
  /\ async_unload_entry working_communicator true "entry-2" domain
       running_runtime
     = (Raise (Exception "KeyError"), domain, running_runtime).
Proof.
  intros running_runtime domain.
  destruct (unload_stops_with_last_entry working_communicator "entry-1"
              domain running_runtime) as (_ & _ & Hstored).
  destruct (Hstored tt (lookup_singleton_eq _ _)) as (_ & _ & Hlast).
  destruct (Hlast (delete_singleton_eq _ _)) as (_ & _ & Hstopped & _).
  split; [exact Hstopped|].
  destruct (unload_stops_with_last_entry working_communicator "entry-2"
              domain running_runtime) as (_ & Hmissing & _).
  apply Hmissing. apply lookup_singleton_ne. discriminate.
Defined.

